(** * Monitoring layer of cats-and-dogs: Discord alerts and Prometheus metrics

    A shallow embedding of [src/monitoring/discord_notifier.py] and
    [src/monitoring/prometheus_metrics.py].

    Python code with effects is written in a state-and-exception monad
    [Py S A]; dictionaries whose insertion order is sent on the wire are
    association lists, plain lookup tables are [gmap]s; Python floats are
    IEEE binary64 values ([PrimFloat]). *)

From Stdlib Require Import ZArith List String Ascii Bool Lia DecimalString Floats.
From stdpp Require Import base option list gmap strings.

Set Warnings "-inexact-float,-register-all".
Open Scope Z_scope.

(** ** A small model of the Python runtime the two modules rely on *)

Module Python.

(** *** Exceptions *)

(** The exception classes that occur in the modelled code, with the base
    classes they have in CPython and in [requests.exceptions]. *)
Inductive exc_class :=
| BaseException | Exception | KeyboardInterrupt | SystemExit
| ArithmeticError | ZeroDivisionError | ValueError | OSError
| RequestException | HTTPError | ConnectionError | Timeout | MissingSchema.

#[global] Instance exc_class_eq_dec : EqDecision exc_class.
Proof. solve_decision. Defined.

Definition bases (c : exc_class) : list exc_class :=
  match c with
  | BaseException => []
  | Exception | KeyboardInterrupt | SystemExit => [BaseException]
  | ArithmeticError | ValueError | OSError => [Exception]
  | ZeroDivisionError => [ArithmeticError]
  | RequestException => [OSError]
  | HTTPError | ConnectionError | Timeout => [RequestException]
  | MissingSchema => [RequestException; ValueError]
  end.

Fixpoint issubclass_upto (depth : nat) (c cls : exc_class) : bool :=
  bool_decide (c = cls) ||
  match depth with
  | O => false
  | S d => existsb (fun b => issubclass_upto d b cls) (bases c)
  end.

(** The hierarchy above is four levels deep. *)
Definition issubclass (c cls : exc_class) : bool := issubclass_upto 4 c cls.

(** An exception instance: its class and [str(e)]. *)
Record exn := mk_exn { exc_type : exc_class; exc_str : string }.

(** *** Computations: state passing with exceptions *)

Inductive outcome (A : Type) :=
| Return (a : A)
| Raise (e : exn).
Arguments Return {A} a.
Arguments Raise {A} e.

Definition Py (S A : Type) : Type := S -> outcome A * S.

Definition ret {S A} (a : A) : Py S A := fun s => (Return a, s).

Definition bind {S A B} (m : Py S A) (k : A -> Py S B) : Py S B :=
  fun s =>
    match m s with
    | (Return a, s') => k a s'
    | (Raise e, s') => (Raise e, s')
    end.

Definition raise {S A} (e : exn) : Py S A := fun s => (Raise e, s).

(** [try: body  except cls as e: handler e] *)
Definition try_except {S A} (body : Py S A) (cls : exc_class)
           (handler : exn -> Py S A) : Py S A :=
  fun s =>
    match body s with
    | (Return a, s') => (Return a, s')
    | (Raise e, s') =>
        if issubclass (exc_type e) cls then handler e s' else (Raise e, s')
    end.

Definition gets {S A} (f : S -> A) : Py S A := fun s => (Return (f s), s).
Definition modify {S} (f : S -> S) : Py S unit := fun s => (Return tt, f s).

Declare Scope py_scope.
Delimit Scope py_scope with py.
Notation "x <- m ;; k" := (bind m (fun x => k))
  (at level 100, m at next level, right associativity) : py_scope.

(** *** Values *)

(** Scalars that appear as values of a metrics mapping. *)
Inductive scalar :=
| SNone
| SBool (b : bool)
| SInt (z : Z)
| SStr (s : string).

(** What [requests] serialises with [json=]: JSON-like Python data, with
    dictionaries in insertion order. *)
Inductive value :=
| VNone
| VBool (b : bool)
| VInt (z : Z)
| VStr (s : string)
| VList (l : list value)
| VDict (kvs : list (string * value)).

Definition dict (V : Type) : Type := list (string * V).

(** [d.get(k)] *)
Fixpoint dict_get {V} (k : string) (d : dict V) : option V :=
  match d with
  | [] => None
  | (k', v) :: d' => if decide (k' = k) then Some v else dict_get k d'
  end.

(** [d[k] = v]: replaces the value of an existing key in place, appends
    a new key at the end. *)
Fixpoint dict_set {V} (k : string) (v : V) (d : dict V) : dict V :=
  match d with
  | [] => [(k, v)]
  | (k', v') :: d' =>
      if decide (k' = k) then (k', v) :: d' else (k', v') :: dict_set k v d'
  end.

(** Truth value of an optional string ([bool(os.getenv(..))]). *)
Definition bool_of_optstr (o : option string) : bool :=
  match o with
  | None => false
  | Some s => negb (bool_decide (s = ""%string))
  end.

(** Truth value of an optional dictionary ([if metrics:]). *)
Definition bool_of_optdict {V} (o : option (dict V)) : bool :=
  match o with
  | None | Some [] => false
  | Some (_ :: _) => true
  end.

(** *** Text *)

Definition digits (n : Z) : string :=
  NilZero.string_of_uint (N.to_uint (Z.to_N n)).

Definition str_of_int (z : Z) : string :=
  if z <? 0 then "-" +:+ digits (- z) else digits z.

(** [str(v)] on scalars. *)
Definition str (v : scalar) : string :=
  match v with
  | SNone => "None"
  | SBool true => "True"
  | SBool false => "False"
  | SInt z => str_of_int z
  | SStr s => s
  end.

Fixpoint zeros (n : nat) : string :=
  match n with
  | O => ""
  | S k => String "0" (zeros k)
  end.

(** Left-pads the decimal digits of a non-negative [n] to [width]. *)
Definition zfill (width : nat) (n : Z) : string :=
  let ds := digits n in
  zeros (width - String.length ds) +:+ ds.

(** *** Floats: [format(x, ".Nf")] and [format(x, ".N%")] *)

Definition round_half_even_div (num den : Z) : Z :=
  let q := num / den in
  let r := num mod den in
  if 2 * r <? den then q
  else if den <? 2 * r then q + 1
  else if Z.even q then q else q + 1.

(** [m * 2^e * 10^p] rounded to the nearest integer, ties to even: the
    digits CPython prints for the float [m * 2^e] with [p] decimals. *)
Definition scaled_digits (p : nat) (m : positive) (e : Z) : Z :=
  if 0 <=? e then Z.pos m * 2 ^ e * 10 ^ Z.of_nat p
  else round_half_even_div (Z.pos m * 10 ^ Z.of_nat p) (2 ^ (- e)).

(** Writes the integer [n] with a decimal point [p] digits from the right. *)
Definition fixed_point (p : nat) (n : Z) : string :=
  let ds := zfill (S p) n in
  let k := (String.length ds - p)%nat in
  match p with
  | O => ds
  | _ => substring 0 k ds +:+ "." +:+ substring k p ds
  end.

Definition sign_str (s : bool) : string := if s then "-" else "".

(** [format(x, ".pf")] *)
Definition format_f (p : nat) (x : float) : string :=
  match Prim2SF x with
  | S754_nan => "nan"
  | S754_infinity s => sign_str s +:+ "inf"
  | S754_zero s => sign_str s +:+ fixed_point p 0
  | S754_finite s m e => sign_str s +:+ fixed_point p (scaled_digits p m e)
  end.

(** [format(x, ".p%")]: CPython multiplies by 100 as a double, formats
    with [f] and appends the percent sign. *)
Definition format_pct (p : nat) (x : float) : string :=
  format_f p (PrimFloat.mul x 100) +:+ "%".

(** [x > y] on floats. *)
Definition float_gt (x y : float) : bool := PrimFloat.ltb y x.

(** [x >= y] on floats. *)
Definition float_ge (x y : float) : bool := PrimFloat.leb y x.

(** [x / y] on floats: a zero divisor (of either sign) raises. *)
Definition float_truediv {S} (x y : float) : Py S float :=
  if PrimFloat.eqb y 0 then
    raise (mk_exn ZeroDivisionError "float division by zero")
  else ret (PrimFloat.div x y).

(** *** Dates *)

Record datetime := mk_datetime {
  year : Z; month : Z; day : Z;
  hour : Z; minute : Z; second : Z; microsecond : Z
}.

(** [dt.strftime("%Y-%m-%d %H:%M:%S")], for years of four digits. *)
Definition strftime_Ymd_HMS (dt : datetime) : string :=
  zfill 4 (year dt) +:+ "-" +:+ zfill 2 (month dt) +:+ "-" +:+ zfill 2 (day dt)
  +:+ " " +:+ zfill 2 (hour dt) +:+ ":" +:+ zfill 2 (minute dt)
  +:+ ":" +:+ zfill 2 (second dt).

(** [dt.isoformat()] of a naive datetime: the microseconds are printed
    only when they are not zero. *)
Definition isoformat (dt : datetime) : string :=
  zfill 4 (year dt) +:+ "-" +:+ zfill 2 (month dt) +:+ "-" +:+ zfill 2 (day dt)
  +:+ "T" +:+ zfill 2 (hour dt) +:+ ":" +:+ zfill 2 (minute dt)
  +:+ ":" +:+ zfill 2 (second dt)
  +:+ (if microsecond dt =? 0 then "" else "." +:+ zfill 6 (microsecond dt)).

(** [x] is not a NaN and its sign bit is [s]. *)
Definition carries (s : bool) (x : spec_float) : Prop :=
  match x with
  | S754_nan => False
  | S754_zero s' | S754_infinity s' | S754_finite s' _ _ => s' = s
  end.

(** *** [str.lower], on the bytes of the string *)

(** ASCII capitals are lowered and every other byte is kept. [str.lower]
    also changes letters outside ASCII, but it turns none of them into one
    of the letters of ["true"], so a comparison of the result with
    ["true"] comes out the same. *)
Definition lower_byte (c : ascii) : ascii :=
  let n := nat_of_ascii c in
  if ((65 <=? n) && (n <=? 90))%nat then ascii_of_nat (n + 32) else c.

Fixpoint lower (s : string) : string :=
  match s with
  | EmptyString => EmptyString
  | String c s' => String (lower_byte c) (lower s')
  end.

End Python.

(** ** [src/monitoring/discord_notifier.py] *)

Module discord_notifier.
Import Python.
Local Open Scope py_scope.

(** The two attributes of a [DiscordNotifier] instance. *)
Record DiscordNotifier := mk_notifier {
  webhook_url : option string;
  enabled : bool
}.

(** [DiscordNotifier.__init__]; [environ] is [os.environ] once
    [load_dotenv] has run. *)
Definition __init__ (environ : gmap string string) : DiscordNotifier :=
  let webhook_url := environ !! "DISCORD_WEBHOOK_URL"%string in
  {| webhook_url := webhook_url; enabled := bool_of_optstr webhook_url |}.

(** *** The outside world *)

(** What one [requests.post] call can meet on the wire. *)
Inductive post_outcome :=
| Responded (status_code : Z) (reason : string)
| UrlRejected (detail : string)
| ConnectionRefused (detail : string)
| NameResolutionFailed (detail : string)
| TimedOut (detail : string).

Record Response := mk_response {
  status_code : Z;
  reason : string;
  url : string
}.

(** The process state the module reads and writes: the module-level
    [notifier] object, the calls made to [requests.post] (URL and JSON
    body, oldest first), the lines printed, and how many times the
    clock was read. *)
Record World := mk_world {
  notifier : DiscordNotifier;
  posted : list (option string * value);
  stdout : list string;
  clock_reads : nat
}.

Definition record_post (call : option string * value) (w : World) : World :=
  {| notifier := notifier w; posted := posted w ++ [call];
     stdout := stdout w; clock_reads := clock_reads w |}.

Definition write_line (line : string) (w : World) : World :=
  {| notifier := notifier w; posted := posted w;
     stdout := stdout w ++ [line]; clock_reads := clock_reads w |}.

Definition tick (w : World) : World :=
  {| notifier := notifier w; posted := posted w;
     stdout := stdout w; clock_reads := S (clock_reads w) |}.

(** State of the process right after the module is imported
    ([notifier = DiscordNotifier()]). *)
Definition initial_world (environ : gmap string string) : World :=
  {| notifier := __init__ environ; posted := []; stdout := []; clock_reads := 0 |}.

Section Effects.

(** The remote end: what the [n]-th POST of the process meets, given
    its URL and body. *)
Variable transport : nat -> string -> value -> post_outcome.

(** The clock: UTC and local time at the [n]-th reading. *)
Variable utc_clock : nat -> datetime.
Variable local_clock : nat -> datetime.

(** [str(x)] of a float (the shortest decimal that reads back as [x]);
    it only occurs in the message text of [alert_high_latency]. *)
Variable float_str : float -> string.

(** [requests.post(url, json=payload)] *)
Definition requests_post (url : option string) (payload : value)
  : Py World Response :=
  fun w =>
    let w' := record_post (url, payload) w in
    match url with
    | None =>
        (Raise (mk_exn MissingSchema
           "Invalid URL 'None': No scheme supplied. Perhaps you meant https://None?"), w')
    | Some u =>
        match transport (length (posted w)) u payload with
        | Responded code why => (Return (mk_response code why u), w')
        | UrlRejected detail => (Raise (mk_exn MissingSchema detail), w')
        | ConnectionRefused detail => (Raise (mk_exn ConnectionError detail), w')
        | NameResolutionFailed detail => (Raise (mk_exn ConnectionError detail), w')
        | TimedOut detail => (Raise (mk_exn Timeout detail), w')
        end
    end.

(** [Response.raise_for_status] *)
Definition raise_for_status (response : Response) : Py World unit :=
  let code := status_code response in
  if (400 <=? code) && (code <? 500) then
    raise (mk_exn HTTPError
      (str_of_int code +:+ " Client Error: " +:+ reason response
       +:+ " for url: " +:+ url response))
  else if (500 <=? code) && (code <? 600) then
    raise (mk_exn HTTPError
      (str_of_int code +:+ " Server Error: " +:+ reason response
       +:+ " for url: " +:+ url response))
  else ret tt.

Definition print (line : string) : Py World unit := modify (write_line line).

(** [datetime.utcnow()] *)
Definition utcnow : Py World datetime :=
  fun w => (Return (utc_clock (clock_reads w)), tick w).

(** [datetime.now()] *)
Definition now : Py World datetime :=
  fun w => (Return (local_clock (clock_reads w)), tick w).

(** *** [DiscordNotifier.send_alert]; [self] is the module's [notifier]. *)
Definition send_alert (title message level : string)
           (metrics : option (dict scalar)) : Py World unit :=
  self <- gets notifier ;;
  if negb (enabled self) then ret tt
  else
    let colors : gmap string Z :=
      {[ "info"%string := 3447003; "warning"%string := 16776960;
         "error"%string := 15158332; "critical"%string := 10038562 ]} in
    timestamp <- utcnow ;;
    let embed : dict value :=
      [ ("title"%string, VStr ("🚨 " +:+ title));
        ("description"%string, VStr message);
        ("color"%string, VInt (default 3447003 (colors !! level)));
        ("timestamp"%string, VStr (isoformat timestamp));
        ("footer"%string, VDict [("text"%string, VStr "CV Cats & Dogs Monitoring")]) ] in
    let embed :=
      if bool_of_optdict metrics then
        dict_set "fields"
          (VList (map (fun '(key, value) =>
                         VDict [ ("name"%string, VStr key);
                                 ("value"%string, VStr (str value));
                                 ("inline"%string, VBool true) ])
                      (default [] metrics)))
          embed
      else embed in
    let payload :=
      VDict [ ("username"%string, VStr "MLOps Bot");
              ("embeds"%string, VList [VDict embed]) ] in
    try_except
      (response <- requests_post (webhook_url self) payload ;;
       raise_for_status response)
      Exception
      (fun e => print ("❌ Failed to send Discord alert: " +:+ exc_str e)).

(** *** The alert helpers *)

Definition alert_model_degradation (accuracy threshold : float) : Py World unit :=
  if PrimFloat.ltb accuracy threshold then
    send_alert
      "Model Performance Degradation"
      ("Model accuracy (" +:+ format_pct 2 accuracy
       +:+ ") dropped below threshold (" +:+ format_pct 2 threshold +:+ ")")
      "warning"
      (Some [ ("Current Accuracy"%string, SStr (format_pct 2 accuracy));
              ("Threshold"%string, SStr (format_pct 2 threshold));
              ("Gap"%string, SStr (format_pct 2 (PrimFloat.sub accuracy threshold))) ])
  else ret tt.

(** Default of [threshold] in [alert_model_degradation]. *)
Definition degradation_threshold_default : float := 0.85%float.

(** The arguments of the call are evaluated before the call, from left to
    right: the message, then the metrics, whose last entry divides. *)
Definition alert_high_latency (latency_ms threshold : float) : Py World unit :=
  if float_gt latency_ms threshold then
    let message :=
      "Inference taking " +:+ float_str latency_ms
      +:+ "ms (threshold: " +:+ float_str threshold +:+ "ms)" in
    slowdown <- float_truediv latency_ms threshold ;;
    send_alert
      "High Inference Latency"
      message
      "error"
      (Some [ ("Latency"%string, SStr (format_f 0 latency_ms +:+ "ms"));
              ("Threshold"%string, SStr (format_f 0 threshold +:+ "ms"));
              ("Slowdown"%string, SStr ("x" +:+ format_f 1 slowdown)) ])
  else ret tt.

(** Default of [threshold] in [alert_high_latency]. *)
Definition latency_threshold_default : float := 2000%float.

Definition alert_database_disconnected : Py World unit :=
  send_alert
    "Database Connection Lost"
    "PostgreSQL database is unreachable. All feedback storage is currently disabled."
    "critical"
    (Some [ ("Service"%string, SStr "PostgreSQL");
            ("Impact"%string, SStr "❌ Feedback storage offline");
            ("Action"%string, SStr "Check docker logs cv_postgres") ]).

(** The local clock is read while the metrics are built, before the call. *)
Definition alert_deployment_success (version : string) : Py World unit :=
  let message := "Version " +:+ version +:+ " deployed successfully to production" in
  local_time <- now ;;
  send_alert
    "Deployment Successful"
    message
    "info"
    (Some [ ("Version"%string, SStr version);
            ("Status"%string, SStr "✅ Running");
            ("Timestamp"%string, SStr (strftime_Ymd_HMS local_time)) ]).

Definition alert_new_prediction : Py World unit :=
  send_alert
    "New project"
    "Le modèle a été utilisé pour une prediction"
    "info"
    None.

(** *** Sequences of calls made by client code *)

Inductive call :=
| Call_send_alert (title message level : string) (metrics : option (dict scalar))
| Call_alert_model_degradation (accuracy threshold : float)
| Call_alert_high_latency (latency_ms threshold : float)
| Call_alert_database_disconnected
| Call_alert_deployment_success (version : string)
| Call_alert_new_prediction.

Definition run_call (c : call) : Py World unit :=
  match c with
  | Call_send_alert title message level metrics =>
      send_alert title message level metrics
  | Call_alert_model_degradation accuracy threshold =>
      alert_model_degradation accuracy threshold
  | Call_alert_high_latency latency_ms threshold =>
      alert_high_latency latency_ms threshold
  | Call_alert_database_disconnected => alert_database_disconnected
  | Call_alert_deployment_success version => alert_deployment_success version
  | Call_alert_new_prediction => alert_new_prediction
  end.

(** The world after the calls [cs], made one after the other by a
    caller that goes on whatever a call returns or raises. *)
Fixpoint run_calls (cs : list call) (w : World) : World :=
  match cs with
  | [] => w
  | c :: cs' => run_calls cs' (snd (run_call c w))
  end.

End Effects.

(** Whether a call gets as far as calling [send_alert]. *)
Definition fires (c : call) : bool :=
  match c with
  | Call_alert_model_degradation accuracy threshold =>
      PrimFloat.ltb accuracy threshold
  | Call_alert_high_latency latency_ms threshold =>
      float_gt latency_ms threshold && negb (PrimFloat.eqb threshold 0)
  | _ => true
  end.

(** Whether a call ends in an exception. *)
Definition raises (c : call) : bool :=
  match c with
  | Call_alert_high_latency latency_ms threshold =>
      float_gt latency_ms threshold && PrimFloat.eqb threshold 0
  | _ => false
  end.

(** *** Reading a posted body back *)

(** The embeds of a webhook body. *)
Definition embeds_of (payload : value) : list value :=
  match payload with
  | VDict kvs =>
      match dict_get "embeds" kvs with
      | Some (VList es) => es
      | _ => []
      end
  | _ => []
  end.

(** [e.get(k)] on an embed. *)
Definition embed_get (k : string) (e : value) : option value :=
  match e with
  | VDict kvs => dict_get k kvs
  | _ => None
  end.

(** The POSTs [w'] has on top of those of [w]. *)
Definition new_posts (w w' : World) : list (option string * value) :=
  drop (length (posted w)) (posted w').

(** The lines printed in [w'] on top of those of [w]. *)
Definition new_output (w w' : World) : list string :=
  drop (length (stdout w)) (stdout w').

(** What a state [w'] adds to [w]: the POSTs [l] and the lines [o]. *)
Definition extends (w w' : World) (l : list (option string * value))
           (o : list string) : Prop :=
  posted w' = posted w ++ l /\ stdout w' = stdout w ++ o.

(** The embed of the one POST made between [w] and [w'], when there is
    exactly one such POST and its body carries exactly one embed. *)
Definition sole_embed (w w' : World) : option value :=
  match new_posts w w' with
  | [(_, payload)] =>
      match embeds_of payload with
      | [e] => Some e
      | _ => None
      end
  | _ => None
  end.

(** The line printed when a send fails with an exception whose text is
    [detail]. *)
Definition diagnostic (detail : string) : string :=
  "❌ Failed to send Discord alert: " +:+ detail.

(** A status on which [raise_for_status] raises: 4xx or 5xx. *)
Definition is_error_status (code : Z) : bool := (400 <=? code) && (code <? 600).

(** Whether the POST of [payload] made in state [w] goes through: there is
    a URL, the remote end answers, and the status is not an error. *)
Definition delivered (transport : nat -> string -> value -> post_outcome)
           (url : option string) (payload : value) (w : World) : bool :=
  match url with
  | None => false
  | Some u =>
      match transport (length (posted w)) u payload with
      | Responded code _ => negb (is_error_status code)
      | _ => false
      end
  end.

(** *** The alert record as the specification words it

    The definitions below do not come from the source: they follow the
    specification's description of the wire format, and are compared
    with what [send_alert] posts. *)

(** Severity to display colour; anything unknown is shown as [info]. *)
Definition spec_color (level : string) : Z :=
  if decide (level = "info"%string) then 3447003
  else if decide (level = "warning"%string) then 16776960
  else if decide (level = "error"%string) then 15158332
  else if decide (level = "critical"%string) then 10038562
  else 3447003.

(** One [{name, value, inline}] triple. *)
Definition spec_field (name text : string) : value :=
  VDict [ ("name"%string, VStr name); ("value"%string, VStr text);
          ("inline"%string, VBool true) ].

(** Title, description, colour, timestamp and footer, followed by a
    list of field triples only when there is at least one metric. *)
Definition spec_embed (timestamp : datetime) (title message level : string)
           (metrics : option (dict scalar)) : dict value :=
  [ ("title"%string, VStr ("🚨 " +:+ title));
    ("description"%string, VStr message);
    ("color"%string, VInt (spec_color level));
    ("timestamp"%string, VStr (isoformat timestamp));
    ("footer"%string, VDict [("text"%string, VStr "CV Cats & Dogs Monitoring")]) ]
  ++ match metrics with
     | None | Some [] => []
     | Some entries =>
         [ ("fields"%string,
            VList (map (fun kv => spec_field (fst kv) (str (snd kv))) entries)) ]
     end.

(** The body posted: a fixed sender name and the single embed. *)
Definition spec_payload (timestamp : datetime) (title message level : string)
           (metrics : option (dict scalar)) : value :=
  VDict [ ("username"%string, VStr "MLOps Bot");
          ("embeds"%string,
           VList [VDict (spec_embed timestamp title message level metrics)]) ].

End discord_notifier.

(** ** [src/monitoring/prometheus_metrics.py] *)

Module prometheus_metrics.
Import Python.
Local Open Scope py_scope.

Inductive metric_type := counter | gauge | histogram.

(** What a metric constructor is given: the description under which the
    instrument is registered. Only a histogram has buckets. *)
Record Family := mk_family {
  f_type : metric_type;
  f_name : string;
  f_documentation : string;
  f_labelnames : list string;
  f_buckets : option (list float)
}.

(** A live instrument: its description and the value of its unlabelled
    sample. *)
Record Metric := mk_metric {
  family : Family;
  value : float
}.

(** Creating an instrument registers it in the process-wide default
    registry, which refuses a name it already holds; a new instrument
    starts at zero. *)
Definition register (f : Family) : Py (gmap string Family) Metric :=
  fun REGISTRY =>
    match REGISTRY !! f_name f with
    | Some _ =>
        (Raise (mk_exn ValueError
           ("Duplicated timeseries in CollectorRegistry: " +:+ f_name f)),
         REGISTRY)
    | None => (Return (mk_metric f 0%float), <[f_name f := f]> REGISTRY)
    end.

Definition Gauge (name documentation : string) : Py (gmap string Family) Metric :=
  register (mk_family gauge name documentation [] None).

Definition Counter (name documentation : string) (labelnames : list string)
  : Py (gmap string Family) Metric :=
  register (mk_family counter name documentation labelnames None).

Definition Histogram (name documentation : string) (buckets : list float)
  : Py (gmap string Family) Metric :=
  register (mk_family histogram name documentation [] (Some buckets)).

(** [Gauge.set] *)
Definition Gauge_set (v : float) (g : Metric) : Metric :=
  {| family := family g; value := v |}.

(** The module-level names, bound when the module is imported. *)
Record Globals := mk_globals {
  database_status : Metric;
  cv_predictions_total : Metric;
  cv_predictions_by_class_total : Metric;
  cv_prediction_latency_seconds : Metric;
  cv_feedback_negative_total : Metric
}.

(** The module-level statements, in source order. *)
Definition module_body : Py (gmap string Family) Globals :=
  database_status <-
    Gauge "cv_database_connected"
          "Database connection status (1=connected, 0=disconnected)" ;;
  cv_predictions_total <-
    Counter "cv_predictions_total"
            "Nombre total de prédictions effectuées" [] ;;
  cv_predictions_by_class_total <-
    Counter "cv_predictions_by_class_total"
            "Nombre de prédictions par classe" ["label"%string] ;;
  cv_prediction_latency_seconds <-
    Histogram "cv_prediction_latency_seconds"
              "Temps d'inférence du modèle en secondes"
              [0.05; 0.1; 0.2; 0.5; 1; 2; 5]%float ;;
  cv_feedback_negative_total <-
    Counter "cv_feedback_negative_total"
            "Nombre de feedbacks négatifs (0 = insatisfait) par classe prédite"
            ["label"%string] ;;
  ret (mk_globals database_status cv_predictions_total
                  cv_predictions_by_class_total
                  cv_prediction_latency_seconds
                  cv_feedback_negative_total).

(** [update_db_status]; [Gauge.set] stores [float(1)] or [float(0)]. *)
Definition update_db_status (is_connected : bool) : Py Globals unit :=
  modify (fun g =>
    {| database_status :=
         Gauge_set (if is_connected then 1%float else 0%float) (database_status g);
       cv_predictions_total := cv_predictions_total g;
       cv_predictions_by_class_total := cv_predictions_by_class_total g;
       cv_prediction_latency_seconds := cv_prediction_latency_seconds g;
       cv_feedback_negative_total := cv_feedback_negative_total g |}).

(** The module state after the calls [update_db_status b] for [b] in
    [bs], in order. *)
Fixpoint run_updates (bs : list bool) (g : Globals) : Globals :=
  match bs with
  | [] => g
  | b :: bs' => run_updates bs' (snd (update_db_status b g))
  end.

(** *** [setup_prometheus] *)

(** What [setup_prometheus] does to the application it is given:
    [Instrumentator().instrument(app)] and [.expose(app, endpoint=..)]. *)
Inductive app_call :=
| Instrument
| Expose (endpoint : string).

(** The host service: the calls made on the application so far, oldest
    first, and the lines printed. *)
Record Host := mk_host {
  app : list app_call;
  printed : list string
}.

Definition setup_prometheus (environ : gmap string string) : Py Host unit :=
  if bool_decide
       (lower (default "false"%string (environ !! "ENABLE_PROMETHEUS"%string))
        = "true"%string)
  then
    _ <- modify (fun h => mk_host (app h ++ [Instrument; Expose "/metrics"])
                                  (printed h)) ;;
    modify (fun h => mk_host (app h)
                       (printed h ++ ["✅ Prometheus metrics enabled at /metrics"%string]))
  else
    modify (fun h => mk_host (app h)
                       (printed h ++ ["ℹ️  Prometheus metrics disabled"%string])).

(** The spellings of ["true"] that differ only in the case of letters. *)
Definition spellings_of_true : list string :=
  [ "true"; "truE"; "trUe"; "trUE"; "tRue"; "tRuE"; "tRUe"; "tRUE";
    "True"; "TruE"; "TrUe"; "TrUE"; "TRue"; "TRuE"; "TRUe"; "TRUE" ]%string.


(** Kind, label names and buckets of an instrument. *)
Definition shape (f : Family) : metric_type * list string * option (list float) :=
  (f_type f, f_labelnames f, f_buckets f).

(** The instrument names as the data-model table of the specification
    writes them. *)
Definition table_names : list string :=
  [ "predictions_total"; "predictions_by_class_total";
    "prediction_latency_seconds"; "feedback_negative_total";
    "database_connected" ]%string.

End prometheus_metrics.

(** ** Sample inputs, used to instantiate the properties below *)

Module samples.
Import Python discord_notifier.

(** A remote end that answers every POST with a 500. *)
Definition server_down : nat -> string -> value -> post_outcome :=
  fun _ _ _ => Responded 500 "Internal Server Error".

(** A remote end that refuses every connection. *)
Definition refusing : nat -> string -> value -> post_outcome :=
  fun _ _ _ => ConnectionRefused "Connection refused".

(** A remote end that accepts every POST. *)
Definition accepting : nat -> string -> value -> post_outcome :=
  fun _ _ _ => Responded 204 "No Content".

(** A clock stuck at 2025-11-16 14:32:00. *)
Definition stopped_clock : nat -> datetime :=
  fun _ => mk_datetime 2025 11 16 14 32 0 0.

(** The process with a webhook configured, and without. *)
Definition configured : World :=
  initial_world
    {[ "DISCORD_WEBHOOK_URL"%string := "https://discord.com/api/webhooks/1/token"%string ]}.

Definition unconfigured : World := initial_world ∅.

(** A printer of floats that gives up. *)
Definition no_float_str : float -> string := fun _ => "?"%string.

(** A run of calls: two that fire, one that raises, one below its
    threshold, one more that fires. *)
Definition burst : list call :=
  [ Call_alert_model_degradation 0.78 0.85;
    Call_alert_new_prediction;
    Call_alert_high_latency 5 0;
    Call_alert_high_latency 1500 2000;
    Call_alert_deployment_success "v3.2.1" ].

(** An environment that switches the metrics on, and a host not yet set up. *)
Definition metrics_on : gmap string string :=
  {[ "ENABLE_PROMETHEUS"%string := "True"%string ]}.

Definition fresh_host : prometheus_metrics.Host :=
  prometheus_metrics.mk_host [] [].

End samples.

(** * Properties *)

(** ** The Python runtime model *)

Section PythonFacts.
Import Python.

(** Everything [requests] raises is caught by [except Exception]. *)
Lemma requests_errors_are_exceptions c :
  issubclass c RequestException = true -> issubclass c Exception = true.
Proof. destruct c; vm_compute; congruence. Qed.

(** [except Exception] is not a catch-all: an interrupt goes through. *)
Lemma try_except_lets_interrupt_through {S A} (h : exn -> Py S A) (s : S) msg :
  try_except (raise (mk_exn KeyboardInterrupt msg)) Exception h s
  = (Raise (mk_exn KeyboardInterrupt msg), s).
Proof. reflexivity. Qed.

Lemma SFcompare_Lt_Gt x y :
  SFcompare x y = Some Lt -> SFcompare y x = Some Gt.
Proof.
  destruct x as [sx|sx| |sx mx ex], y as [sy|sy| |sy my ey]; simpl;
    try destruct sx; try destruct sy; try congruence.
  all: rewrite (Z.compare_antisym ex ey).
  all: destruct (ex ?= ey)%Z; simpl; try congruence.
  all: pose proof (Pos.compare_cont_antisym mx my Eq) as A; simpl in A.
  all: rewrite <- A; destruct (Pos.compare_cont Eq mx my); simpl; congruence.
Qed.

(** On floats, [x >= y] excludes [x < y]. *)
Lemma float_ge_not_lt x y : float_ge x y = true -> PrimFloat.ltb x y = false.
Proof.
  unfold float_ge. rewrite leb_spec, ltb_spec. unfold SFleb, SFltb.
  destruct (SFcompare (Prim2SF x) (Prim2SF y)) as [[]|] eqn:E; try reflexivity.
  rewrite (SFcompare_Lt_Gt _ _ E). congruence.
Qed.

(** On floats, [x <= y] excludes [x > y]. *)
Lemma float_le_not_gt x y : PrimFloat.leb x y = true -> float_gt x y = false.
Proof. apply (float_ge_not_lt y x). Qed.

End PythonFacts.

(** ** [discord_notifier]: what one [send_alert] call does *)

Section DiscordFacts.
Import Python discord_notifier.

Variable transport : nat -> string -> value -> post_outcome.
Variables utc_clock local_clock : nat -> datetime.
Variable float_str : float -> string.

Local Abbreviation send_alert := (discord_notifier.send_alert transport utc_clock).
Local Abbreviation run_calls :=
  (discord_notifier.run_calls transport utc_clock local_clock float_str).

(** The colour table with its default is the specification's mapping. *)
Lemma colors_get (level : string) :
  default 3447003
    (({[ "info"%string := 3447003; "warning"%string := 16776960;
         "error"%string := 15158332; "critical"%string := 10038562 ]}
       : gmap string Z) !! level)
  = spec_color level.
Proof.
  unfold spec_color. repeat case_decide; subst; try (vm_compute; reflexivity).
  rewrite !lookup_insert_ne, lookup_singleton_ne by done. reflexivity.
Qed.

(** The field triples built by the comprehension are the
    specification's. *)
Lemma fields_comprehension (entries : dict scalar) :
  map (fun '(key, value) =>
         VDict [ ("name"%string, VStr key);
                 ("value"%string, VStr (str value));
                 ("inline"%string, VBool true) ]) entries
  = map (fun kv => spec_field (fst kv) (str (snd kv))) entries.
Proof. apply map_ext. intros [key value]. reflexivity. Qed.

Lemma error_status_split code :
  is_error_status code
  = ((400 <=? code) && (code <? 500)) || ((500 <=? code) && (code <? 600)).
Proof.
  unfold is_error_status.
  destruct (Z.leb_spec 400 code), (Z.ltb_spec code 500),
           (Z.leb_spec 500 code), (Z.ltb_spec code 600);
    cbn [andb orb]; try reflexivity; lia.
Qed.

(** A raised exception is caught and leaves one line. *)
Local Ltac caught_with_line :=
  eexists [_];
  split; [reflexivity|];
  split; [right; eexists; reflexivity | split; discriminate].

(** The POST and its status check, wrapped in the handler: it always
    returns, records the POST, and prints one diagnostic line unless the
    POST is delivered, in which case it prints nothing. *)
Lemma post_caught url payload w :
  exists out,
    try_except
      (response <- requests_post transport url payload ;;
       raise_for_status response)%py
      Exception
      (fun e => print (diagnostic (exc_str e))) w
    = (Return tt,
       mk_world (notifier w) (posted w ++ [(url, payload)])
                (stdout w ++ out) (clock_reads w))
    /\ (out = [] \/ exists detail, out = [diagnostic detail])
    /\ (out = [] <-> delivered transport url payload w = true).
Proof.
  unfold try_except, bind, requests_post, delivered.
  destruct url as [u|]; [destruct (transport _ u payload) as [code why|d|d|d|d]|];
    try caught_with_line.
  rewrite error_status_split.
  unfold raise_for_status, record_post; cbn [status_code reason url].
  destruct ((400 <=? code) && (code <? 500)); [caught_with_line|].
  destruct ((500 <=? code) && (code <? 600)); [caught_with_line|].
  exists []. rewrite app_nil_r.
  split; [reflexivity|]. split; [left; reflexivity|]. split; reflexivity.
Qed.

(** On an enabled notifier [send_alert] reads the clock once, posts the
    body the specification describes to the configured URL, returns
    normally, and prints nothing or one diagnostic line. *)
Lemma send_alert_enabled title message level metrics w :
  enabled (notifier w) = true ->
  exists out,
    send_alert title message level metrics w
    = (Return tt,
       mk_world (notifier w)
                (posted w ++
                   [(webhook_url (notifier w),
                     spec_payload (utc_clock (clock_reads w))
                                  title message level metrics)])
                (stdout w ++ out) (S (clock_reads w)))
    /\ (out = [] \/ exists detail, out = [diagnostic detail])
    /\ (out = [] <->
        delivered transport (webhook_url (notifier w))
          (spec_payload (utc_clock (clock_reads w)) title message level metrics) w
        = true).
Proof.
  intros He.
  destruct (post_caught (webhook_url (notifier w))
              (spec_payload (utc_clock (clock_reads w)) title message level metrics)
              (tick w)) as [out [E Hout]].
  exists out. split; [|exact Hout].
  unfold discord_notifier.send_alert, bind, gets. rewrite He.
  cbn [negb]. unfold utcnow. rewrite colors_get, fields_comprehension.
  etransitivity; [|exact E].
  destruct metrics as [[|[k v] ms]|]; reflexivity.
Qed.

(** On a disabled notifier [send_alert] is a no-op. *)
Lemma send_alert_disabled title message level metrics w :
  enabled (notifier w) = false ->
  send_alert title message level metrics w = (Return tt, w).
Proof.
  intros He. unfold discord_notifier.send_alert, bind, gets. rewrite He. reflexivity.
Qed.

(** [send_alert] never touches the notifier object. *)
Lemma send_alert_frame title message level metrics w :
  notifier (snd (send_alert title message level metrics w)) = notifier w.
Proof.
  destruct (enabled (notifier w)) eqn:He.
  - destruct (send_alert_enabled title message level metrics w He) as [out [E _]].
    rewrite E. reflexivity.
  - rewrite send_alert_disabled by exact He. reflexivity.
Qed.

(** [send_alert] never raises. *)
Lemma send_alert_returns title message level metrics w :
  fst (send_alert title message level metrics w) = Return tt.
Proof.
  destruct (enabled (notifier w)) eqn:He.
  - destruct (send_alert_enabled title message level metrics w He) as [out [E _]].
    rewrite E. reflexivity.
  - rewrite send_alert_disabled by exact He. reflexivity.
Qed.

Lemma new_posts_app w w' l :
  posted w' = posted w ++ l -> new_posts w w' = l.
Proof. intros E. unfold new_posts. rewrite E. apply drop_app_length. Qed.

Lemma new_output_app w w' l :
  stdout w' = stdout w ++ l -> new_output w w' = l.
Proof. intros E. unfold new_output. rewrite E. apply drop_app_length. Qed.

(** The embed an enabled notifier posts is the specification's. *)
Lemma send_alert_sole_embed title message level metrics w :
  enabled (notifier w) = true ->
  sole_embed w (snd (send_alert title message level metrics w))
  = Some (VDict (spec_embed (utc_clock (clock_reads w)) title message level metrics)).
Proof.
  intros He.
  destruct (send_alert_enabled title message level metrics w He) as [out [E _]].
  rewrite E. unfold sole_embed.
  rewrite (new_posts_app w _ [(webhook_url (notifier w),
    spec_payload (utc_clock (clock_reads w)) title message level metrics)])
    by reflexivity.
  reflexivity.
Qed.

Lemma spec_embed_color ts title message level metrics :
  embed_get "color" (VDict (spec_embed ts title message level metrics))
  = Some (VInt (spec_color level)).
Proof. reflexivity. Qed.

Lemma spec_embed_fields ts title message level entry entries :
  embed_get "fields"
    (VDict (spec_embed ts title message level (Some (entry :: entries))))
  = Some (VList (map (fun kv => spec_field (fst kv) (str (snd kv)))
                     (entry :: entries))).
Proof. reflexivity. Qed.

Lemma spec_embed_no_fields ts title message level metrics :
  bool_of_optdict metrics = false ->
  embed_get "fields" (VDict (spec_embed ts title message level metrics)) = None.
Proof. destruct metrics as [[|kv ms]|]; [reflexivity|discriminate|reflexivity]. Qed.

(** *** The helpers leave the notifier alone and never fail on a send *)

Lemma run_call_frame c w :
  notifier (snd (discord_notifier.run_call transport utc_clock local_clock
                   float_str c w)) = notifier w.
Proof.
  destruct c as [t m l ms|a th|lat th| |v| ]; cbn [run_call].
  - apply send_alert_frame.
  - unfold discord_notifier.alert_model_degradation.
    destruct (PrimFloat.ltb a th); [apply send_alert_frame|reflexivity].
  - unfold discord_notifier.alert_high_latency.
    destruct (float_gt lat th); [|reflexivity].
    unfold bind, float_truediv.
    destruct (PrimFloat.eqb th 0); [reflexivity|apply send_alert_frame].
  - apply send_alert_frame.
  - unfold discord_notifier.alert_deployment_success, bind, now.
    rewrite send_alert_frame. reflexivity.
  - apply send_alert_frame.
Qed.

Lemma run_calls_frame cs w : notifier (run_calls cs w) = notifier w.
Proof.
  revert w. induction cs as [|c cs IH]; intros w; [reflexivity|].
  cbn [discord_notifier.run_calls]. rewrite IH. apply run_call_frame.
Qed.

End DiscordFacts.

(** ** [discord_notifier]: the dispatcher *)

Section Dispatcher.
Import Python discord_notifier.

Variable transport : nat -> string -> value -> post_outcome.
Variable utc_clock : nat -> datetime.

Local Abbreviation send_alert := (discord_notifier.send_alert transport utc_clock).

(** C1. On an enabled dispatcher [send_alert] returns normally for every
    title, message, level and metrics mapping and for every behaviour of
    the transport (refused connection, failed name resolution, timeout,
    rejected URL, or a response of any status, so also the 4xx and 5xx
    ones on which [raise_for_status] raises). It leaves the dispatcher as
    it was, makes exactly one POST, and the only other trace is on the
    standard output: one diagnostic line when the POST fails, nothing when
    it is delivered. *)
Theorem send_alert_never_raises title message level metrics w :
  enabled (notifier w) = true ->
  fst (send_alert title message level metrics w) = Return tt
  /\ notifier (snd (send_alert title message level metrics w)) = notifier w
  /\ length (new_posts w (snd (send_alert title message level metrics w))) = 1%nat
  /\ (new_output w (snd (send_alert title message level metrics w)) = []
      \/ exists detail,
           new_output w (snd (send_alert title message level metrics w))
           = [diagnostic detail])
  /\ (new_output w (snd (send_alert title message level metrics w)) = []
      <-> delivered transport (webhook_url (notifier w))
            (spec_payload (utc_clock (clock_reads w)) title message level metrics) w
          = true).
Proof.
  intros He.
  destruct (send_alert_enabled transport utc_clock title message level metrics w He)
    as [out [E [Hout Hiff]]].
  rewrite E. cbn [fst snd].
  split; [reflexivity|]. split; [reflexivity|].
  erewrite new_posts_app by (cbn [posted]; reflexivity).
  erewrite new_output_app by (cbn [stdout]; reflexivity).
  split; [reflexivity|]. split; [exact Hout|exact Hiff].
Qed.

(** C2. On a dispatcher whose endpoint is not configured ([enabled] is
    false) [send_alert] returns at once, for every title, message, level
    and metrics mapping: the process state is untouched, so there is no
    POST, no line printed and no error. *)
Theorem send_alert_unconfigured_is_noop title message level metrics w :
  enabled (notifier w) = false ->
  send_alert title message level metrics w = (Return tt, w)
  /\ new_posts w (snd (send_alert title message level metrics w)) = []
  /\ new_output w (snd (send_alert title message level metrics w)) = [].
Proof.
  intros He. rewrite (send_alert_disabled transport utc_clock) by exact He.
  cbn [snd]. unfold new_posts, new_output. rewrite !drop_all. auto.
Qed.

(** C5. The embed [send_alert] posts has colour 3447003 for level
    ["info"], 16776960 for ["warning"], 15158332 for ["error"], 10038562
    for ["critical"], and the info colour 3447003 for every other level
    string; the call returns normally whatever the level is. *)
Theorem send_alert_color title message level metrics w :
  enabled (notifier w) = true ->
  fst (send_alert title message level metrics w) = Return tt
  /\ exists e c,
       sole_embed w (snd (send_alert title message level metrics w)) = Some e
       /\ embed_get "color" e = Some (VInt c)
       /\ (level = "info"%string -> c = 3447003)
       /\ (level = "warning"%string -> c = 16776960)
       /\ (level = "error"%string -> c = 15158332)
       /\ (level = "critical"%string -> c = 10038562)
       /\ (level <> "info"%string -> level <> "warning"%string ->
           level <> "error"%string -> level <> "critical"%string ->
           c = 3447003).
Proof.
  intros He. split; [apply send_alert_returns|].
  eexists _, (spec_color level).
  split; [apply send_alert_sole_embed; exact He|].
  split; [apply spec_embed_color|].
  unfold spec_color.
  repeat split; intros; subst; repeat case_decide; congruence.
Qed.

(** C10. The embed posted by an enabled dispatcher has no ["fields"] key
    when [metrics] is [None] or an empty mapping; when the mapping is not
    empty the key holds one [{name, value, inline}] triple per entry, in
    the order of the mapping, with [str] of the entry's value. *)
Theorem send_alert_fields title message level metrics w :
  enabled (notifier w) = true ->
  exists e,
    sole_embed w (snd (send_alert title message level metrics w)) = Some e
    /\ match metrics with
       | None | Some [] => embed_get "fields" e = None
       | Some entries =>
           embed_get "fields" e
           = Some (VList (map (fun kv =>
                                 VDict [ ("name"%string, VStr (fst kv));
                                         ("value"%string, VStr (str (snd kv)));
                                         ("inline"%string, VBool true) ])
                              entries))
       end.
Proof.
  intros He. eexists. split; [apply send_alert_sole_embed; exact He|].
  destruct metrics as [[|kv ms]|].
  - apply spec_embed_no_fields. reflexivity.
  - apply spec_embed_fields.
  - apply spec_embed_no_fields. reflexivity.
Qed.

End Dispatcher.

(** ** [discord_notifier]: the alert helpers *)

Section Helpers.
Import Python discord_notifier.

Variable transport : nat -> string -> value -> post_outcome.
Variables utc_clock local_clock : nat -> datetime.
Variable float_str : float -> string.

Local Abbreviation send_alert := (discord_notifier.send_alert transport utc_clock).
Local Abbreviation alert_model_degradation :=
  (discord_notifier.alert_model_degradation transport utc_clock).
Local Abbreviation alert_high_latency :=
  (discord_notifier.alert_high_latency transport utc_clock float_str).
Local Abbreviation alert_database_disconnected :=
  (discord_notifier.alert_database_disconnected transport utc_clock).
Local Abbreviation alert_deployment_success :=
  (discord_notifier.alert_deployment_success transport utc_clock local_clock).
Local Abbreviation alert_new_prediction :=
  (discord_notifier.alert_new_prediction transport utc_clock).
Local Abbreviation run_calls :=
  (discord_notifier.run_calls transport utc_clock local_clock float_str).

(** One call of [send_alert] on an enabled notifier: one POST with one
    embed, of the colour of [level], with the fields of [entries]. *)
Lemma one_alert_posted title message level entry entries w :
  enabled (notifier w) = true ->
  exists e,
    sole_embed w (snd (send_alert title message level (Some (entry :: entries)) w))
    = Some e
    /\ embed_get "color" e = Some (VInt (spec_color level))
    /\ embed_get "fields" e
       = Some (VList (map (fun kv => spec_field (fst kv) (str (snd kv)))
                          (entry :: entries))).
Proof.
  intros He. eexists.
  split; [apply send_alert_sole_embed; exact He|].
  split; [apply spec_embed_color|apply spec_embed_fields].
Qed.

(** C3. [alert_model_degradation accuracy threshold] is exactly one call
    of [send_alert] when [accuracy < threshold]: level ["warning"], and
    the fields Current Accuracy, Threshold and Gap, the last being the
    signed difference [accuracy - threshold] as a percentage with two
    decimals; on an enabled notifier that is one POST of one yellow embed
    with these three fields. When [accuracy >= threshold] nothing is
    called and the state is untouched. With 0.78 against 0.85 the Gap
    field reads ["-7.00%"]; with 0.90 against 0.85 nothing is sent. *)
Theorem alert_model_degradation_gate accuracy threshold w :
  (PrimFloat.ltb accuracy threshold = true ->
     alert_model_degradation accuracy threshold w
     = send_alert
         "Model Performance Degradation"
         ("Model accuracy (" +:+ format_pct 2 accuracy
          +:+ ") dropped below threshold (" +:+ format_pct 2 threshold +:+ ")")
         "warning"
         (Some [ ("Current Accuracy"%string, SStr (format_pct 2 accuracy));
                 ("Threshold"%string, SStr (format_pct 2 threshold));
                 ("Gap"%string,
                  SStr (format_pct 2 (PrimFloat.sub accuracy threshold))) ])
         w
     /\ (enabled (notifier w) = true ->
         exists e,
           sole_embed w (snd (alert_model_degradation accuracy threshold w)) = Some e
           /\ embed_get "color" e = Some (VInt 16776960)
           /\ embed_get "fields" e
              = Some (VList
                  [ spec_field "Current Accuracy" (format_pct 2 accuracy);
                    spec_field "Threshold" (format_pct 2 threshold);
                    spec_field "Gap"
                      (format_pct 2 (PrimFloat.sub accuracy threshold)) ])))
  /\ (float_ge accuracy threshold = true ->
        alert_model_degradation accuracy threshold w = (Return tt, w))
  /\ (enabled (notifier w) = true ->
      exists e,
        sole_embed w (snd (alert_model_degradation 0.78 0.85 w)) = Some e
        /\ embed_get "fields" e
           = Some (VList [ spec_field "Current Accuracy" "78.00%";
                           spec_field "Threshold" "85.00%";
                           spec_field "Gap" "-7.00%" ]))
  /\ alert_model_degradation 0.90 0.85 w = (Return tt, w).
Proof.
  split; [|split; [|split]].
  - intros Hlt. unfold discord_notifier.alert_model_degradation. rewrite Hlt.
    split; [reflexivity|]. intros He.
    destruct (one_alert_posted "Model Performance Degradation"
                ("Model accuracy (" +:+ format_pct 2 accuracy
                 +:+ ") dropped below threshold (" +:+ format_pct 2 threshold +:+ ")")
                "warning"
                ("Current Accuracy"%string, SStr (format_pct 2 accuracy))
                [ ("Threshold"%string, SStr (format_pct 2 threshold));
                  ("Gap"%string,
                   SStr (format_pct 2 (PrimFloat.sub accuracy threshold))) ]
                w He) as [e [Hs [Hc Hf]]].
    exists e. repeat split; assumption.
  - intros Hge. unfold discord_notifier.alert_model_degradation.
    rewrite (float_ge_not_lt _ _ Hge). reflexivity.
  - intros He.
    destruct (one_alert_posted "Model Performance Degradation"
                "Model accuracy (78.00%) dropped below threshold (85.00%)"
                "warning"
                ("Current Accuracy"%string, SStr "78.00%")
                [ ("Threshold"%string, SStr "85.00%");
                  ("Gap"%string, SStr "-7.00%") ]
                w He) as [e [Hs [_ Hf]]].
    exists e. split; [exact Hs|exact Hf].
  - reflexivity.
Qed.

(** With a threshold that is not zero, [alert_high_latency] is exactly
    one call of [send_alert] when [latency_ms > threshold]: level
    ["error"], and the fields Latency, Threshold and Slowdown, the last
    being "x" and the ratio with one decimal. *)
Lemma alert_high_latency_fires latency_ms threshold w :
  PrimFloat.eqb threshold 0 = false ->
  float_gt latency_ms threshold = true ->
  alert_high_latency latency_ms threshold w
  = send_alert
      "High Inference Latency"
      ("Inference taking " +:+ float_str latency_ms
       +:+ "ms (threshold: " +:+ float_str threshold +:+ "ms)")
      "error"
      (Some [ ("Latency"%string, SStr (format_f 0 latency_ms +:+ "ms"));
              ("Threshold"%string, SStr (format_f 0 threshold +:+ "ms"));
              ("Slowdown"%string,
               SStr ("x" +:+ format_f 1 (PrimFloat.div latency_ms threshold))) ])
      w.
Proof.
  intros Hnz Hgt. unfold discord_notifier.alert_high_latency.
  rewrite Hgt. unfold bind, float_truediv. rewrite Hnz. reflexivity.
Qed.

(** When [latency_ms <= threshold] nothing is called. *)
Lemma alert_high_latency_quiet latency_ms threshold w :
  PrimFloat.leb latency_ms threshold = true ->
  alert_high_latency latency_ms threshold w = (Return tt, w).
Proof.
  intros Hle. unfold discord_notifier.alert_high_latency.
  rewrite (float_le_not_gt _ _ Hle). reflexivity.
Qed.

(** 3000 ms against 2000 ms: one red embed whose Slowdown reads "x1.5". *)
Lemma alert_high_latency_3000_2000 w :
  enabled (notifier w) = true ->
  exists e,
    sole_embed w (snd (alert_high_latency 3000 2000 w)) = Some e
    /\ embed_get "color" e = Some (VInt 15158332)
    /\ embed_get "fields" e
       = Some (VList [ spec_field "Latency" "3000ms";
                       spec_field "Threshold" "2000ms";
                       spec_field "Slowdown" "x1.5" ]).
Proof.
  intros He.
  rewrite alert_high_latency_fires by reflexivity.
  apply (one_alert_posted _ _ "error"
           ("Latency"%string, SStr "3000ms")
           [ ("Threshold"%string, SStr "2000ms");
             ("Slowdown"%string, SStr "x1.5") ] w He).
Qed.

(** 1500 ms against 2000 ms: nothing is sent. *)
Lemma alert_high_latency_1500_2000 w :
  alert_high_latency 1500 2000 w = (Return tt, w).
Proof. apply alert_high_latency_quiet. reflexivity. Qed.

(** C4, at a zero threshold. A latency of 5 ms is above a threshold of
    0 ms, so the alert is due; but the Slowdown field divides by the
    threshold, the division raises [ZeroDivisionError] while the
    arguments of [send_alert] are being built, and the helper raises
    without having called it: no POST is made, enabled or not. *)
Theorem alert_high_latency_zero_threshold w :
  float_gt 5 0 = true
  /\ alert_high_latency 5 0 w
     = (Raise (mk_exn ZeroDivisionError "float division by zero"), w)
  /\ new_posts w (snd (alert_high_latency 5 0 w)) = [].
Proof.
  split; [reflexivity|]. split; [reflexivity|].
  unfold new_posts. cbn [snd]. apply drop_all.
Qed.

(** C6. The three helpers that always fire. Each is exactly one call of
    [send_alert], whatever the state: the database notice with level
    ["critical"] and the fixed Service, Impact and Action fields; the
    deployment notice, after one reading of the local clock, with level
    ["info"] and the fields Version (the version given), Status (a fixed
    text) and Timestamp (the local time read); the prediction notice with
    level ["info"] and no metrics. Each returns normally, and on an
    enabled notifier each makes one POST of one embed of the level's
    colour with these fields (no ["fields"] key for the last). *)
Theorem always_fire_helpers version w :
  (alert_database_disconnected w
   = send_alert
       "Database Connection Lost"
       "PostgreSQL database is unreachable. All feedback storage is currently disabled."
       "critical"
       (Some [ ("Service"%string, SStr "PostgreSQL");
               ("Impact"%string, SStr "❌ Feedback storage offline");
               ("Action"%string, SStr "Check docker logs cv_postgres") ])
       w
   /\ alert_deployment_success version w
      = send_alert
          "Deployment Successful"
          ("Version " +:+ version +:+ " deployed successfully to production")
          "info"
          (Some [ ("Version"%string, SStr version);
                  ("Status"%string, SStr "✅ Running");
                  ("Timestamp"%string,
                   SStr (strftime_Ymd_HMS (local_clock (clock_reads w)))) ])
          (tick w)
   /\ alert_new_prediction w
      = send_alert "New project" "Le modèle a été utilisé pour une prediction"
                   "info" None w)
  /\ (fst (alert_database_disconnected w) = Return tt
      /\ fst (alert_deployment_success version w) = Return tt
      /\ fst (alert_new_prediction w) = Return tt)
  /\ (enabled (notifier w) = true ->
      (exists e,
         sole_embed w (snd (alert_database_disconnected w)) = Some e
         /\ embed_get "color" e = Some (VInt 10038562)
         /\ embed_get "fields" e
            = Some (VList [ spec_field "Service" "PostgreSQL";
                            spec_field "Impact" "❌ Feedback storage offline";
                            spec_field "Action" "Check docker logs cv_postgres" ]))
      /\ (exists e,
            sole_embed w (snd (alert_deployment_success version w)) = Some e
            /\ embed_get "color" e = Some (VInt 3447003)
            /\ embed_get "fields" e
               = Some (VList
                   [ spec_field "Version" version;
                     spec_field "Status" "✅ Running";
                     spec_field "Timestamp"
                       (strftime_Ymd_HMS (local_clock (clock_reads w))) ]))
      /\ (exists e,
            sole_embed w (snd (alert_new_prediction w)) = Some e
            /\ embed_get "color" e = Some (VInt 3447003)
            /\ embed_get "fields" e = None)).
Proof.
  split; [|split].
  - repeat split; reflexivity.
  - repeat split.
    + apply send_alert_returns.
    + unfold discord_notifier.alert_deployment_success, bind, now.
      apply send_alert_returns.
    + apply send_alert_returns.
  - intros He. split; [|split].
    + apply (one_alert_posted
               "Database Connection Lost"
               "PostgreSQL database is unreachable. All feedback storage is currently disabled."
               "critical"
               ("Service"%string, SStr "PostgreSQL")
               [ ("Impact"%string, SStr "❌ Feedback storage offline");
                 ("Action"%string, SStr "Check docker logs cv_postgres") ]
               w He).
    + change (sole_embed w (snd (alert_deployment_success version w)))
        with (sole_embed (tick w)
                (snd (send_alert
                   "Deployment Successful"
                   ("Version " +:+ version +:+ " deployed successfully to production")
                   "info"
                   (Some [ ("Version"%string, SStr version);
                           ("Status"%string, SStr "✅ Running");
                           ("Timestamp"%string,
                            SStr (strftime_Ymd_HMS (local_clock (clock_reads w)))) ])
                   (tick w)))).
      apply (one_alert_posted
               "Deployment Successful"
               ("Version " +:+ version +:+ " deployed successfully to production")
               "info"
               ("Version"%string, SStr version)
               [ ("Status"%string, SStr "✅ Running");
                 ("Timestamp"%string,
                  SStr (strftime_Ymd_HMS (local_clock (clock_reads w)))) ]
               (tick w) He).
    + eexists. split; [apply send_alert_sole_embed; exact He|].
      split; [apply spec_embed_color|].
      apply spec_embed_no_fields. reflexivity.
Qed.

(** C7. A notifier built by [__init__] keeps the endpoint found in the
    environment and is enabled exactly when that endpoint is present and
    not empty; and no sequence of calls, to [send_alert] or to any of the
    helpers, changes the notifier object of the process, be it freshly
    built or not. *)
Theorem notifier_fixed_at_construction environ cs :
  webhook_url (__init__ environ) = environ !! "DISCORD_WEBHOOK_URL"%string
  /\ (enabled (__init__ environ) = true
      <-> exists endpoint,
            webhook_url (__init__ environ) = Some endpoint
            /\ endpoint <> ""%string)
  /\ notifier (run_calls cs (initial_world environ)) = __init__ environ
  /\ forall w, notifier (run_calls cs w) = notifier w.
Proof.
  split; [reflexivity|]. split; [|split].
  - unfold __init__; cbn [webhook_url enabled].
    destruct (environ !! "DISCORD_WEBHOOK_URL"%string) as [s|]; cbn [bool_of_optstr].
    + rewrite negb_true_iff, bool_decide_eq_false. split.
      * intros Hs. exists s. split; [reflexivity|exact Hs].
      * intros [s' [Es Hs']]. congruence.
    + split; [discriminate|]. intros [s [Es _]]. discriminate.
  - rewrite (run_calls_frame transport utc_clock local_clock float_str).
    reflexivity.
  - apply run_calls_frame.
Qed.

End Helpers.

(** ** [prometheus_metrics] *)

Section Metrics.
Import Python prometheus_metrics.

Lemma run_updates_last bs b g :
  value (database_status (run_updates (bs ++ [b]) g))
  = if b then 1%float else 0%float.
Proof.
  revert g. induction bs as [|b' bs IH]; intros g; [reflexivity|].
  cbn [run_updates app]. apply IH.
Qed.

(** Updates only ever store 0 or 1 in the gauge. *)
Lemma run_updates_bit bs g :
  value (database_status g) = 0%float \/ value (database_status g) = 1%float ->
  value (database_status (run_updates bs g)) = 0%float
  \/ value (database_status (run_updates bs g)) = 1%float.
Proof.
  intros Hg. destruct bs as [|b bs _] using rev_ind; [exact Hg|].
  rewrite run_updates_last. destruct b; [right|left]; reflexivity.
Qed.

(** Updates touch nothing but the gauge. *)
Lemma run_updates_frame bs g :
  family (database_status (run_updates bs g)) = family (database_status g)
  /\ cv_predictions_total (run_updates bs g) = cv_predictions_total g
  /\ cv_predictions_by_class_total (run_updates bs g) = cv_predictions_by_class_total g
  /\ cv_prediction_latency_seconds (run_updates bs g) = cv_prediction_latency_seconds g
  /\ cv_feedback_negative_total (run_updates bs g) = cv_feedback_negative_total g.
Proof.
  revert g. induction bs as [|b bs IH]; intros g; [repeat split|].
  cbn [run_updates]. destruct (IH (snd (update_db_status b g))) as (H1 & H2 & H3 & H4 & H5).
  rewrite H1, H2, H3, H4, H5. repeat split.
Qed.

(** C8. [update_db_status is_connected] returns [None] and cannot raise;
    it leaves the gauge at 1 when [is_connected] is true and at 0 when it
    is false, whatever the gauge held. After any sequence of calls the
    gauge holds the value of the last call alone; after
    [update_db_status True] then [update_db_status False] it holds 0. *)
Theorem update_db_status_last_write_wins (bs : list bool) (b : bool) (g : Globals) :
  fst (update_db_status b g) = Return tt
  /\ value (database_status (snd (update_db_status b g)))
     = (if b then 1%float else 0%float)
  /\ value (database_status (run_updates (bs ++ [b]) g))
     = (if b then 1%float else 0%float)
  /\ value (database_status (run_updates [true; false] g)) = 0%float.
Proof.
  split; [reflexivity|]. split; [reflexivity|].
  split; [apply run_updates_last|reflexivity].
Qed.

(** C9, as the claim words it: the names of the data-model table are not
    the names under which the module registers its instruments. *)
Lemma table_names_are_not_registered :
  ~ (forall name, In name table_names ->
       is_Some (snd (module_body ∅) !! name)).
Proof.
  intros H. destruct (H "predictions_total"%string) as [f Hf].
  - left. reflexivity.
  - vm_compute in Hf. discriminate.
Qed.

(** C9, amended. Importing the module on an empty registry succeeds and
    registers exactly five instruments, each under its own name:
    cv_predictions_total (counter, no labels),
    cv_predictions_by_class_total (counter, label "label"),
    cv_prediction_latency_seconds (histogram, no labels, buckets 0.05,
    0.1, 0.2, 0.5, 1, 2, 5), cv_feedback_negative_total (counter, label
    "label") and cv_database_connected (gauge, no labels). The module
    names are bound to these instruments; the gauge starts at 0 and
    holds 0 or 1 after any sequence of [update_db_status] calls. *)
Theorem module_registers_five_instruments :
  exists g,
    fst (module_body ∅) = Return g
    /\ size (snd (module_body ∅)) = 5%nat
    /\ shape <$> snd (module_body ∅) !! "cv_predictions_total"%string
       = Some (counter, [], None)
    /\ shape <$> snd (module_body ∅) !! "cv_predictions_by_class_total"%string
       = Some (counter, ["label"%string], None)
    /\ shape <$> snd (module_body ∅) !! "cv_prediction_latency_seconds"%string
       = Some (histogram, [], Some [0.05; 0.1; 0.2; 0.5; 1; 2; 5]%float)
    /\ shape <$> snd (module_body ∅) !! "cv_feedback_negative_total"%string
       = Some (counter, ["label"%string], None)
    /\ shape <$> snd (module_body ∅) !! "cv_database_connected"%string
       = Some (gauge, [], None)
    /\ snd (module_body ∅) !! "cv_predictions_total"%string
       = Some (family (cv_predictions_total g))
    /\ snd (module_body ∅) !! "cv_predictions_by_class_total"%string
       = Some (family (cv_predictions_by_class_total g))
    /\ snd (module_body ∅) !! "cv_prediction_latency_seconds"%string
       = Some (family (cv_prediction_latency_seconds g))
    /\ snd (module_body ∅) !! "cv_feedback_negative_total"%string
       = Some (family (cv_feedback_negative_total g))
    /\ snd (module_body ∅) !! "cv_database_connected"%string
       = Some (family (database_status g))
    /\ value (database_status g) = 0%float
    /\ forall bs,
         value (database_status (run_updates bs g)) = 0%float
         \/ value (database_status (run_updates bs g)) = 1%float.
Proof.
  eexists. split; [vm_compute; reflexivity|].
  repeat (split; [vm_compute; reflexivity|]).
  intros bs. apply run_updates_bit. left. reflexivity.
Qed.

End Metrics.

(** ** The properties at sample inputs *)

Section Instances.
Import Python discord_notifier samples.

Lemma configured_enabled : enabled (notifier configured) = true.
Proof. vm_compute. reflexivity. Qed.

Lemma unconfigured_disabled : enabled (notifier unconfigured) = false.
Proof. vm_compute. reflexivity. Qed.

(** A refused connection ends up as one line on the standard output. *)
Example refused_connection_is_printed :
  send_alert refusing stopped_clock "Disk" "Disk is full" "error" None configured
  = (Return tt,
     mk_world (notifier configured)
       [ (Some "https://discord.com/api/webhooks/1/token"%string,
          spec_payload (stopped_clock 0%nat) "Disk" "Disk is full" "error" None) ]
       [ "❌ Failed to send Discord alert: Connection refused"%string ]
       1).
Proof. vm_compute. reflexivity. Qed.

(** An accepted POST leaves the standard output empty. *)
Example accepted_post_is_silent :
  stdout (snd (send_alert accepting stopped_clock "Disk" "Disk is full" "error"
                 None configured)) = [].
Proof. vm_compute. reflexivity. Qed.

Lemma send_alert_never_raises_witness :
  fst (send_alert server_down stopped_clock "Disk" "Disk is full" "error" None
         configured) = Return tt.
Proof.
  apply (send_alert_never_raises server_down stopped_clock
           "Disk" "Disk is full" "error" None configured).
  vm_compute. reflexivity.
Defined.

Lemma send_alert_unconfigured_is_noop_witness :
  send_alert server_down stopped_clock "" "" "info" (Some []) unconfigured
  = (Return tt, unconfigured).
Proof.
  apply (send_alert_unconfigured_is_noop server_down stopped_clock
           "" "" "info" (Some []) unconfigured).
  vm_compute. reflexivity.
Defined.

Lemma send_alert_color_witness :
  fst (send_alert accepting stopped_clock "Disk" "Disk is full" "verbose" None
         configured) = Return tt.
Proof.
  apply (send_alert_color accepting stopped_clock
           "Disk" "Disk is full" "verbose" None configured).
  vm_compute. reflexivity.
Defined.

Lemma send_alert_fields_witness :
  exists e,
    sole_embed configured
      (snd (send_alert accepting stopped_clock "Disk" "Disk is full" "error"
              (Some [("Free"%string, SInt 0)]) configured)) = Some e
    /\ embed_get "fields" e
       = Some (VList [VDict [ ("name"%string, VStr "Free");
                              ("value"%string, VStr "0");
                              ("inline"%string, VBool true) ]]).
Proof.
  apply (send_alert_fields accepting stopped_clock
           "Disk" "Disk is full" "error" (Some [("Free"%string, SInt 0)]) configured).
  vm_compute. reflexivity.
Defined.

Lemma alert_model_degradation_gate_witness :
  exists e,
    sole_embed configured
      (snd (alert_model_degradation accepting stopped_clock 0.78 0.85 configured))
    = Some e
    /\ embed_get "fields" e
       = Some (VList [ spec_field "Current Accuracy" "78.00%";
                       spec_field "Threshold" "85.00%";
                       spec_field "Gap" "-7.00%" ]).
Proof.
  apply (alert_model_degradation_gate accepting stopped_clock 0.78 0.85 configured).
  vm_compute. reflexivity.
Defined.

Lemma always_fire_helpers_witness :
  exists e,
    sole_embed configured
      (snd (alert_new_prediction accepting stopped_clock configured)) = Some e
    /\ embed_get "color" e = Some (VInt 3447003)
    /\ embed_get "fields" e = None.
Proof.
  apply (always_fire_helpers accepting stopped_clock stopped_clock "v3.2.1" configured).
  vm_compute. reflexivity.
Defined.

End Instances.

(** ** [discord_notifier]: further properties of the dispatcher *)

Section Wire.
Import Python discord_notifier.

Variable transport : nat -> string -> value -> post_outcome.
Variable utc_clock : nat -> datetime.

Local Abbreviation send_alert := (discord_notifier.send_alert transport utc_clock).

(** X1. The wire format. On an enabled notifier one [send_alert] call
    reads the UTC clock once and makes one POST, to the configured URL,
    whose body is the sender name "MLOps Bot" and a single embed holding,
    in this order, the title behind a siren, the message as description,
    the colour of the level, the clock reading in ISO format, the fixed
    footer and, for a non-empty metrics mapping only, the fields. *)
Theorem send_alert_wire_format title message level metrics w :
  enabled (notifier w) = true ->
  new_posts w (snd (send_alert title message level metrics w))
  = [ (webhook_url (notifier w),
       VDict
         [ ("username"%string, VStr "MLOps Bot");
           ("embeds"%string,
            VList
              [ VDict
                  ([ ("title"%string, VStr ("🚨 " +:+ title));
                     ("description"%string, VStr message);
                     ("color"%string, VInt (spec_color level));
                     ("timestamp"%string,
                      VStr (isoformat (utc_clock (clock_reads w))));
                     ("footer"%string,
                      VDict [("text"%string, VStr "CV Cats & Dogs Monitoring")]) ]
                   ++ match metrics with
                      | None | Some [] => []
                      | Some entries =>
                          [ ("fields"%string,
                             VList (map (fun kv => spec_field (fst kv) (str (snd kv)))
                                        entries)) ]
                      end) ]) ]) ]
  /\ clock_reads (snd (send_alert title message level metrics w))
     = S (clock_reads w).
Proof.
  intros He.
  destruct (send_alert_enabled transport utc_clock title message level metrics w He)
    as [out [E _]].
  rewrite E. cbn [snd clock_reads]. split; [|reflexivity].
  erewrite new_posts_app by (cbn [posted]; reflexivity). reflexivity.
Qed.


(** X3. Metrics only ever add the ["fields"] key: every other key of the
    posted embed reads the same with a metrics mapping as without one. *)
Theorem metrics_only_add_fields title message level metrics w key :
  enabled (notifier w) = true ->
  key <> "fields"%string ->
  exists e e0,
    sole_embed w (snd (send_alert title message level metrics w)) = Some e
    /\ sole_embed w (snd (send_alert title message level None w)) = Some e0
    /\ embed_get key e = embed_get key e0.
Proof.
  intros He Hk. eexists _, _.
  split; [apply send_alert_sole_embed; exact He|].
  split; [apply send_alert_sole_embed; exact He|].
  destruct metrics as [[|kv ms]|]; try reflexivity.
  unfold embed_get, spec_embed. cbn [app dict_get].
  repeat case_decide; try reflexivity. congruence.
Qed.

End Wire.

(** ** [discord_notifier]: sequences of calls *)

Section Sequences.
Import Python discord_notifier.

Variable transport : nat -> string -> value -> post_outcome.
Variables utc_clock local_clock : nat -> datetime.
Variable float_str : float -> string.

Local Abbreviation send_alert := (discord_notifier.send_alert transport utc_clock).
Local Abbreviation run_call :=
  (discord_notifier.run_call transport utc_clock local_clock float_str).
Local Abbreviation run_calls :=
  (discord_notifier.run_calls transport utc_clock local_clock float_str).

Lemma extends_refl w w' :
  posted w' = posted w -> stdout w' = stdout w -> extends w w' [] [].
Proof. intros Hp Ho. split; rewrite app_nil_r; assumption. Qed.

Lemma extends_trans w1 w2 w3 l1 o1 l2 o2 :
  extends w1 w2 l1 o1 -> extends w2 w3 l2 o2 ->
  extends w1 w3 (l1 ++ l2) (o1 ++ o2).
Proof.
  intros [Hp1 Ho1] [Hp2 Ho2]. split.
  - rewrite Hp2, Hp1, app_assoc. reflexivity.
  - rewrite Ho2, Ho1, app_assoc. reflexivity.
Qed.

(** One [send_alert] on an enabled notifier: one POST, to the configured
    URL, and at most one line. *)
Lemma send_alert_step title message level metrics w :
  enabled (notifier w) = true ->
  exists l o,
    extends w (snd (send_alert title message level metrics w)) l o
    /\ length l = 1%nat
    /\ Forall (fun p => fst p = webhook_url (notifier w)) l
    /\ (length o <= 1)%nat.
Proof.
  intros He.
  destruct (send_alert_enabled transport utc_clock title message level metrics w He)
    as [out [E [Hout _]]].
  rewrite E. eexists [_], out.
  split; [split; reflexivity|]. split; [reflexivity|].
  split; [repeat constructor|].
  destruct Hout as [->|[d ->]]; cbn; lia.
Qed.

(** One call on an enabled notifier: one POST if the call fires, none
    otherwise, and never more lines than POSTs. *)
Lemma run_call_step c w :
  enabled (notifier w) = true ->
  exists l o,
    extends w (snd (run_call c w)) l o
    /\ length l = (if fires c then 1 else 0)%nat
    /\ Forall (fun p => fst p = webhook_url (notifier w)) l
    /\ (length o <= length l)%nat.
Proof.
  intros He.
  assert (Hquiet : forall w', posted w' = posted w -> stdout w' = stdout w ->
            exists l o, extends w w' l o /\ length l = 0%nat
              /\ Forall (fun p => fst p = webhook_url (notifier w)) l
              /\ (length o <= length l)%nat).
  { intros w' Hp Ho. exists [], []. split; [apply extends_refl; assumption|].
    split; [reflexivity|]. split; [constructor|reflexivity]. }
  assert (Hsend : forall t m lv ms,
            exists l o, extends w (snd (send_alert t m lv ms w)) l o
              /\ length l = 1%nat
              /\ Forall (fun p => fst p = webhook_url (notifier w)) l
              /\ (length o <= length l)%nat).
  { intros t m lv ms.
    destruct (send_alert_step t m lv ms w He) as (l & o & Hx & Hl & Hu & Ho).
    exists l, o. rewrite Hl. auto. }
  destruct c as [t m lv ms|a th|lat th| |v| ]; cbn [discord_notifier.run_call fires].
  - apply Hsend.
  - unfold discord_notifier.alert_model_degradation.
    destruct (PrimFloat.ltb a th); [apply Hsend|apply Hquiet; reflexivity].
  - unfold discord_notifier.alert_high_latency.
    destruct (float_gt lat th); cbn [andb]; [|apply Hquiet; reflexivity].
    unfold bind, float_truediv.
    destruct (PrimFloat.eqb th 0); cbn [negb];
      [apply Hquiet; reflexivity|apply Hsend].
  - apply Hsend.
  - unfold discord_notifier.alert_deployment_success, bind, now.
    match goal with
    | |- context [discord_notifier.send_alert _ _ ?t ?m ?lv ?ms (tick w)] =>
        destruct (send_alert_step t m lv ms (tick w) He) as (l & o & [Hp Ho] & Hl & Hu & Hn)
    end.
    exists l, o. rewrite Hl. repeat split; assumption.
  - apply Hsend.
Qed.

(** A sequence of calls on an enabled notifier. *)
Lemma run_calls_steps cs w :
  enabled (notifier w) = true ->
  exists l o,
    extends w (run_calls cs w) l o
    /\ length l = length (List.filter fires cs)
    /\ Forall (fun p => fst p = webhook_url (notifier w)) l
    /\ (length o <= length l)%nat.
Proof.
  revert w. induction cs as [|c cs IH]; intros w He.
  - exists [], []. split; [apply extends_refl; reflexivity|].
    split; [reflexivity|]. split; [constructor|reflexivity].
  - cbn [discord_notifier.run_calls List.filter].
    destruct (run_call_step c w He) as (l1 & o1 & Hx1 & Hl1 & Hu1 & Hn1).
    pose proof (run_call_frame transport utc_clock local_clock float_str c w) as Hf.
    destruct (IH (snd (run_call c w))) as (l2 & o2 & Hx2 & Hl2 & Hu2 & Hn2).
    { rewrite Hf. exact He. }
    rewrite Hf in Hu2.
    exists (l1 ++ l2), (o1 ++ o2).
    split; [exact (extends_trans _ _ _ _ _ _ _ Hx1 Hx2)|].
    split; [|split].
    + rewrite length_app, Hl1, Hl2. destruct (fires c); reflexivity.
    + apply Forall_app. split; assumption.
    + rewrite !length_app. lia.
Qed.

(** One call on a disabled notifier posts and prints nothing. *)
Lemma run_call_disabled c w :
  enabled (notifier w) = false ->
  posted (snd (run_call c w)) = posted w /\ stdout (snd (run_call c w)) = stdout w.
Proof.
  intros He.
  destruct c as [t m lv ms|a th|lat th| |v| ]; cbn [discord_notifier.run_call].
  - rewrite (send_alert_disabled transport utc_clock) by exact He. auto.
  - unfold discord_notifier.alert_model_degradation.
    destruct (PrimFloat.ltb a th); [|auto].
    rewrite (send_alert_disabled transport utc_clock) by exact He. auto.
  - unfold discord_notifier.alert_high_latency.
    destruct (float_gt lat th); [|auto].
    unfold bind, float_truediv. destruct (PrimFloat.eqb th 0); [auto|].
    unfold ret. cbn beta iota.
    rewrite (send_alert_disabled transport utc_clock) by exact He. auto.
  - unfold discord_notifier.alert_database_disconnected.
    rewrite (send_alert_disabled transport utc_clock) by exact He. auto.
  - unfold discord_notifier.alert_deployment_success, bind, now. cbn beta iota zeta.
    rewrite (send_alert_disabled transport utc_clock) by exact He. auto.
  - unfold discord_notifier.alert_new_prediction.
    rewrite (send_alert_disabled transport utc_clock) by exact He. auto.
Qed.

Lemma run_calls_disabled cs w :
  enabled (notifier w) = false ->
  posted (run_calls cs w) = posted w /\ stdout (run_calls cs w) = stdout w.
Proof.
  revert w. induction cs as [|c cs IH]; intros w He; [auto|].
  cbn [discord_notifier.run_calls].
  destruct (run_call_disabled c w He) as [Hp Ho].
  destruct (IH (snd (run_call c w))) as [Hp' Ho'].
  { rewrite (run_call_frame transport utc_clock local_clock float_str). exact He. }
  rewrite Hp', Ho'. auto.
Qed.

(** X4. One request per alert. On an enabled notifier a sequence of calls,
    to [send_alert] and to the helpers in any mix, makes exactly as many
    POSTs as it has calls that fire: nothing is batched, retried or
    dropped, and a failed POST does not stop the following ones. *)
Theorem one_post_per_fired_call cs w :
  enabled (notifier w) = true ->
  length (new_posts w (run_calls cs w)) = length (List.filter fires cs).
Proof.
  intros He. destruct (run_calls_steps cs w He) as (l & o & [Hp _] & Hl & _ & _).
  rewrite (new_posts_app _ _ _ Hp). exact Hl.
Qed.

(** X5. Alerts go nowhere else. Whatever the sequence of calls and whatever
    the state, every POST it makes is addressed to the webhook URL the
    notifier was built with. *)
Theorem posts_only_to_webhook cs w :
  Forall (fun p => fst p = webhook_url (notifier w)) (new_posts w (run_calls cs w)).
Proof.
  destruct (enabled (notifier w)) eqn:He.
  - destruct (run_calls_steps cs w He) as (l & o & [Hp _] & _ & Hu & _).
    rewrite (new_posts_app _ _ _ Hp). exact Hu.
  - destruct (run_calls_disabled cs w He) as [Hp _].
    unfold new_posts. rewrite Hp, drop_all. constructor.
Qed.

(** X6. The module prints only about POSTs it attempted: over any sequence
    of calls, in any state, the lines printed are never more than the
    POSTs made. *)
Theorem lines_bounded_by_posts cs w :
  (length (new_output w (run_calls cs w))
   <= length (new_posts w (run_calls cs w)))%nat.
Proof.
  destruct (enabled (notifier w)) eqn:He.
  - destruct (run_calls_steps cs w He) as (l & o & [Hp Ho] & _ & _ & Hn).
    rewrite (new_posts_app _ _ _ Hp), (new_output_app _ _ _ Ho). exact Hn.
  - destruct (run_calls_disabled cs w He) as [Hp Ho].
    unfold new_posts, new_output. rewrite Hp, Ho, !drop_all. reflexivity.
Qed.

(** X7. Without a webhook the whole module is silent: on a disabled
    notifier no sequence of calls, helpers included, makes a POST or prints
    a line, and the notifier stays disabled. *)
Theorem unconfigured_module_is_silent cs w :
  enabled (notifier w) = false ->
  posted (run_calls cs w) = posted w
  /\ stdout (run_calls cs w) = stdout w
  /\ enabled (notifier (run_calls cs w)) = false.
Proof.
  intros He. destruct (run_calls_disabled cs w He) as [Hp Ho].
  rewrite (run_calls_frame transport utc_clock local_clock float_str). auto.
Qed.

(** X8. The only exception a call can end in. A call raises exactly when it
    is [alert_high_latency] with a latency above a threshold equal to zero;
    it then raises [ZeroDivisionError] and leaves the state as it was.
    Every other call, in every state, returns normally. *)
Theorem only_zero_threshold_raises c w :
  fst (run_call c w)
  = (if raises c
     then Raise (mk_exn ZeroDivisionError "float division by zero")
     else Return tt)
  /\ (raises c = true -> snd (run_call c w) = w).
Proof.
  destruct c as [t m lv ms|a th|lat th| |v| ];
    cbn [discord_notifier.run_call raises].
  - split; [apply send_alert_returns|discriminate].
  - split; [|discriminate].
    unfold discord_notifier.alert_model_degradation.
    destruct (PrimFloat.ltb a th); [apply send_alert_returns|reflexivity].
  - unfold discord_notifier.alert_high_latency.
    destruct (float_gt lat th); cbn [andb]; [|split; [reflexivity|discriminate]].
    unfold bind, float_truediv.
    destruct (PrimFloat.eqb th 0); [split; reflexivity|].
    split; [apply send_alert_returns|discriminate].
  - split; [apply send_alert_returns|discriminate].
  - split; [|discriminate].
    unfold discord_notifier.alert_deployment_success, bind, now.
    apply send_alert_returns.
  - split; [apply send_alert_returns|discriminate].
Qed.

End Sequences.

(** ** [prometheus_metrics]: further properties *)

Section Registry.
Import Python prometheus_metrics.

Lemma update_db_status_absorbs b b' g :
  snd (update_db_status b (snd (update_db_status b' g)))
  = snd (update_db_status b g).
Proof. reflexivity. Qed.

(** X9. Last write wins on the whole module state. After any sequence of
    [update_db_status] calls that ends with [update_db_status b], the
    module is in the state that this last call alone produces from the
    start: the gauge keeps its name and help text, and the counters and
    the histogram are never touched. *)
Theorem update_db_status_state_after (bs : list bool) (b : bool) (g : Globals) :
  run_updates (bs ++ [b]) g = snd (update_db_status b g)
  /\ family (database_status (run_updates (bs ++ [b]) g)) = family (database_status g)
  /\ cv_predictions_total (run_updates (bs ++ [b]) g) = cv_predictions_total g
  /\ cv_predictions_by_class_total (run_updates (bs ++ [b]) g)
     = cv_predictions_by_class_total g
  /\ cv_prediction_latency_seconds (run_updates (bs ++ [b]) g)
     = cv_prediction_latency_seconds g
  /\ cv_feedback_negative_total (run_updates (bs ++ [b]) g)
     = cv_feedback_negative_total g.
Proof.
  split; [|apply run_updates_frame].
  revert g. induction bs as [|b' bs IH]; intros g; [reflexivity|].
  change (run_updates ((b' :: bs) ++ [b]) g)
    with (run_updates (bs ++ [b]) (snd (update_db_status b' g))).
  rewrite IH. apply update_db_status_absorbs.
Qed.







Lemma lower_byte_inv (c x : ascii) :
  lower_byte c = x ->
  (x = "t"%char -> c = "t"%char \/ c = "T"%char)
  /\ (x = "r"%char -> c = "r"%char \/ c = "R"%char)
  /\ (x = "u"%char -> c = "u"%char \/ c = "U"%char)
  /\ (x = "e"%char -> c = "e"%char \/ c = "E"%char).
Proof.
  intros <-.
  destruct c as [[] [] [] [] [] [] [] []]; vm_compute;
    repeat split; intros H; try discriminate H; auto.
Qed.

(** The strings that lower to ["true"] are its sixteen spellings. *)
Lemma lower_true_spellings (v : string) :
  lower v = "true"%string <-> In v spellings_of_true.
Proof.
  split.
  - destruct v as [|c1 [|c2 [|c3 [|c4 [|c5 v]]]]]; cbn [lower]; try discriminate.
    intros H. injection H as H1 H2 H3 H4.
    destruct (lower_byte_inv c1 _ H1) as (T & _).
    destruct (lower_byte_inv c2 _ H2) as (_ & R & _).
    destruct (lower_byte_inv c3 _ H3) as (_ & _ & U & _).
    destruct (lower_byte_inv c4 _ H4) as (_ & _ & _ & E).
    destruct (T eq_refl) as [->| ->], (R eq_refl) as [->| ->],
             (U eq_refl) as [->| ->], (E eq_refl) as [->| ->];
      cbn; tauto.
  - intros H. cbn in H.
    repeat (destruct H as [<-|H]; [reflexivity|]). destruct H.
Qed.

(** X11. The metrics switch. [setup_prometheus] instruments the
    application and exposes "/metrics" exactly when ENABLE_PROMETHEUS is
    set to "true" in any mix of upper and lower case; when the variable is
    unset or holds anything else ("1", "yes", " true", ...) the application
    is not touched. In both cases it returns normally and prints exactly
    one line saying which. *)
Theorem setup_prometheus_gate (environ : gmap string string) (h : Host) :
  fst (setup_prometheus environ h) = Return tt
  /\ ((exists v, environ !! "ENABLE_PROMETHEUS"%string = Some v
                 /\ In v spellings_of_true) ->
      app (snd (setup_prometheus environ h))
      = app h ++ [Instrument; Expose "/metrics"]
      /\ printed (snd (setup_prometheus environ h))
         = printed h ++ ["✅ Prometheus metrics enabled at /metrics"%string])
  /\ ((forall v, environ !! "ENABLE_PROMETHEUS"%string = Some v ->
                 ~ In v spellings_of_true) ->
      app (snd (setup_prometheus environ h)) = app h
      /\ printed (snd (setup_prometheus environ h))
         = printed h ++ ["ℹ️  Prometheus metrics disabled"%string]).
Proof.
  unfold setup_prometheus.
  destruct (environ !! "ENABLE_PROMETHEUS"%string) as [v|] eqn:Ev; cbn [default].
  - case_bool_decide as Hl.
    + split; [reflexivity|]. split; [intros _; split; reflexivity|].
      intros Hno. exfalso. apply (Hno v eq_refl). apply lower_true_spellings, Hl.
    + split; [reflexivity|]. split; [|intros _; split; reflexivity].
      intros (v' & Hv' & Hin). injection Hv' as <-.
      exfalso. apply Hl, lower_true_spellings, Hin.
  - split; [reflexivity|]. split; [|intros _; split; reflexivity].
    intros (v' & Hv' & _). discriminate.
Qed.

End Registry.

(** ** Floats: the sign of a difference *)

Section FloatSign.
Import Python.

(** Rounding keeps a mantissa that is not negative so. *)
Lemma shr_1_nonneg mrs : 0 <= shr_m mrs -> 0 <= shr_m (shr_1 mrs).
Proof.
  destruct mrs as [m r s]. cbn [shr_m]. intros H.
  destruct m as [|[p|p|]|p]; cbn; lia.
Qed.

Lemma iter_pos_nonneg n mrs :
  0 <= shr_m mrs -> 0 <= shr_m (SpecFloat.iter_pos shr_1 n mrs).
Proof.
  revert mrs. induction n as [n IH|n IH|]; intros mrs H; cbn [iter_pos].
  - apply IH, IH, shr_1_nonneg, H.
  - apply IH, IH, H.
  - apply shr_1_nonneg, H.
Qed.

Lemma shr_fexp_nonneg prec emax m e l :
  0 <= m -> 0 <= shr_m (fst (shr_fexp prec emax m e l)).
Proof.
  intros H. unfold shr_fexp, shr.
  assert (H0 : 0 <= shr_m (shr_record_of_loc m l)).
  { destruct l as [|[]]; exact H. }
  destruct (fexp prec emax (Zdigits2 m + e) - e); cbn [fst]; auto using iter_pos_nonneg.
Qed.

Lemma round_nearest_even_nonneg m l : 0 <= m -> 0 <= round_nearest_even m l.
Proof.
  intros H. destruct l as [|[]]; cbn; try lia. destruct (Z.even m); lia.
Qed.

Lemma binary_round_aux_carries prec emax sx mx ex lx :
  0 <= mx -> carries sx (binary_round_aux prec emax sx mx ex lx).
Proof.
  intros H. unfold binary_round_aux.
  pose proof (shr_fexp_nonneg prec emax mx ex lx H) as H1.
  destruct (shr_fexp prec emax mx ex lx) as [mrs' e']. cbn [fst] in H1.
  pose proof (shr_fexp_nonneg prec emax _ e' loc_Exact
                (round_nearest_even_nonneg _ (loc_of_shr_record mrs') H1)) as H2.
  destruct (shr_fexp prec emax _ e' loc_Exact) as [mrs'' e'']. cbn [fst] in H2.
  destruct (shr_m mrs'') as [|m|m]; [reflexivity| |lia].
  destruct (e'' <=? emax - prec); reflexivity.
Qed.

Lemma binary_normalize_neg prec emax m e sz :
  m < 0 -> carries true (binary_normalize prec emax m e sz).
Proof.
  intros H. destruct m as [|m|m]; try lia. cbn [binary_normalize].
  unfold binary_round. destruct (shl_align _ _ _) as [mz ez].
  apply binary_round_aux_carries. lia.
Qed.

Lemma iter_xO m d : Z.pos (Pos.iter xO m d) = Z.pos m * 2 ^ Z.pos d.
Proof.
  induction d as [|d IH] using Pos.peano_ind.
  - cbn. lia.
  - rewrite Pos.iter_succ, Pos2Z.inj_succ, Z.pow_succ_r by lia.
    rewrite Pos2Z.inj_xO, IH. lia.
Qed.

Lemma shl_align_value m e ez :
  ez <= e -> Z.pos (fst (shl_align m e ez)) = Z.pos m * 2 ^ (e - ez).
Proof.
  intros H. unfold shl_align.
  destruct (ez - e) as [|d|d] eqn:E; try lia.
  - replace (e - ez) with 0 by lia. cbn [fst]. lia.
  - cbn [fst]. rewrite iter_xO. f_equal. f_equal. lia.
Qed.

Lemma digits2_pos_bounds m :
  2 ^ (Z.pos (digits2_pos m) - 1) <= Z.pos m < 2 ^ Z.pos (digits2_pos m).
Proof.
  induction m as [m IH|m IH|]; cbn [digits2_pos].
  - rewrite Pos2Z.inj_succ, Z.pow_succ_r by lia.
    replace (Z.succ (Z.pos (digits2_pos m)) - 1) with (Z.succ (Z.pos (digits2_pos m) - 1)) by lia.
    rewrite Z.pow_succ_r by lia. lia.
  - rewrite Pos2Z.inj_succ, Z.pow_succ_r by lia.
    replace (Z.succ (Z.pos (digits2_pos m)) - 1) with (Z.succ (Z.pos (digits2_pos m) - 1)) by lia.
    rewrite Z.pow_succ_r by lia. lia.
  - cbn. lia.
Qed.

(** In a valid float a smaller exponent means a smaller magnitude. *)
Lemma bounded_lt m1 e1 m2 e2 :
  bounded prec emax m1 e1 = true -> bounded prec emax m2 e2 = true ->
  e1 < e2 ->
  Z.pos m1 < Z.pos m2 * 2 ^ (e2 - e1).
Proof.
  unfold bounded, canonical_mantissa, fexp, emin.
  intros B1 B2 He.
  apply andb_true_iff in B1 as [B1 _]. apply andb_true_iff in B2 as [B2 _].
  apply Z.eqb_eq in B1, B2.
  pose proof (digits2_pos_bounds m1) as [_ U1].
  pose proof (digits2_pos_bounds m2) as [L2 _].
  assert (D1 : Z.pos (digits2_pos m1) <= prec) by lia.
  assert (D2 : Z.pos (digits2_pos m2) = prec) by lia.
  rewrite D2 in L2.
  assert (Z.pos m1 < 2 ^ prec).
  { eapply Z.lt_le_trans; [exact U1|]. apply Z.pow_le_mono_r; lia. }
  assert (2 ^ 1 <= 2 ^ (e2 - e1)) by (apply Z.pow_le_mono_r; lia).
  replace (2 ^ prec) with (2 ^ (prec - 1) * 2 ^ 1) in H by reflexivity.
  nia.
Qed.

(** Aligned to the smaller exponent, the mantissas of two valid floats
    compare as the floats' magnitudes do. *)
Lemma aligned_lt m1 e1 m2 e2 :
  bounded prec emax m1 e1 = true -> bounded prec emax m2 e2 = true ->
  e1 < e2 \/ (e1 = e2 /\ Z.pos m1 < Z.pos m2) ->
  Z.pos (fst (shl_align m1 e1 (Z.min e1 e2)))
  < Z.pos (fst (shl_align m2 e2 (Z.min e1 e2))).
Proof.
  intros B1 B2 H.
  rewrite !shl_align_value by lia.
  destruct H as [He|[-> Hm]].
  - rewrite Z.min_l by lia. rewrite Z.sub_diag, Z.mul_1_r.
    apply bounded_lt; assumption.
  - rewrite Z.min_id, Z.sub_diag. lia.
Qed.

Lemma SFsub_negative x y :
  SpecFloat.valid_binary prec emax x = true ->
  SpecFloat.valid_binary prec emax y = true ->
  SFcompare x y = Some Lt ->
  carries true (SFsub prec emax x y).
Proof.
  intros Vx Vy.
  destruct x as [sx|sx| |sx mx ex], y as [sy|sy| |sy my ey]; cbn [SFcompare SFsub];
    try discriminate;
    try (destruct sx; try discriminate); try (destruct sy; try discriminate);
    try reflexivity; cbn [valid_binary] in Vx, Vy; intros Hc;
    apply binary_normalize_neg; cbn [cond_Zopp].
  - (* both negative: the first is the larger in magnitude *)
    assert (H : ey < ex \/ (ey = ex /\ Z.pos my < Z.pos mx)).
    { injection Hc as Hc. destruct (Z.compare_spec ex ey) as [->|Hlt|Hgt];
        try discriminate; [right|left; lia].
      split; [reflexivity|].
      destruct (Pos.compare_cont Eq mx my) eqn:E; try discriminate.
      change (Pos.compare mx my = Gt) in E. apply Pos.compare_gt_iff in E. lia. }
    pose proof (aligned_lt my ey mx ex Vy Vx H) as A.
    rewrite (Z.min_comm ey ex) in A. lia.
  - lia.
  - assert (H : ex < ey \/ (ex = ey /\ Z.pos mx < Z.pos my)).
    { injection Hc as Hc. destruct (Z.compare_spec ex ey) as [->|Hlt|Hgt];
        try discriminate; [right|left; lia].
      split; [reflexivity|].
      exact Hc. }
    pose proof (aligned_lt mx ex my ey Vx Vy H) as A. lia.
Qed.

Lemma SFmul_100_negative x :
  carries true x -> carries true (SFmul prec emax x (Prim2SF 100)).
Proof.
  change (Prim2SF 100) with (S754_finite false 7036874417766400 (-46)).
  destruct x as [s|s| |s m e]; cbn [carries SFmul]; try tauto; intros ->;
    try reflexivity.
  apply binary_round_aux_carries. lia.
Qed.

(** A float below another: their difference is not a NaN and carries a
    minus sign (it may be minus infinity). *)
Lemma sub_negative x y :
  PrimFloat.ltb x y = true -> carries true (Prim2SF (PrimFloat.sub x y)).
Proof.
  rewrite ltb_spec, sub_spec. unfold SFltb. intros H.
  apply SFsub_negative; try apply Prim2SF_valid.
  destruct (SFcompare (Prim2SF x) (Prim2SF y)) as [[]|]; congruence.
Qed.

(** A difference below zero is written with a leading minus sign by the
    percent format. *)
Lemma format_pct_negative p x y :
  PrimFloat.ltb x y = true ->
  exists rest, format_pct p (PrimFloat.sub x y) = String "-" rest.
Proof.
  intros H. unfold format_pct, format_f. rewrite mul_spec.
  pose proof (SFmul_100_negative _ (sub_negative x y H)) as C.
  unfold SF64mul.
  destruct (SFmul prec emax (Prim2SF (PrimFloat.sub x y)) (Prim2SF 100))
    as [s|s| |s m e]; cbn [carries] in C; try contradiction; subst s;
    eexists; reflexivity.
Qed.

Lemma SFcompare_refl x : x <> S754_nan -> SFcompare x x = Some Eq.
Proof.
  destruct x as [s|s| |s m e]; intros H; try congruence; cbn [SFcompare];
    destruct s; try reflexivity;
    rewrite Z.compare_refl, Pos.compare_cont_refl; reflexivity.
Qed.

Lemma is_nan_Prim2SF x : PrimFloat.is_nan x = true -> Prim2SF x = S754_nan.
Proof.
  unfold PrimFloat.is_nan. rewrite FloatAxioms.eqb_spec. unfold SFeqb. intros H.
  destruct (Prim2SF x) as [s|s| |s m e] eqn:E; try reflexivity;
    rewrite SFcompare_refl in H by discriminate; discriminate.
Qed.

(** No comparison with a NaN holds. *)
Lemma nan_not_lt x y :
  PrimFloat.is_nan x = true \/ PrimFloat.is_nan y = true ->
  PrimFloat.ltb x y = false /\ PrimFloat.ltb y x = false.
Proof.
  rewrite !ltb_spec. unfold SFltb.
  intros [H|H]; apply is_nan_Prim2SF in H; rewrite H;
    [destruct (Prim2SF y) as [s|s| |s m e]|destruct (Prim2SF x) as [s|s| |s m e]];
    split; reflexivity.
Qed.

End FloatSign.

(** ** [discord_notifier]: the thresholds on unusual floats *)

Section Thresholds.
Import Python discord_notifier.

Variable transport : nat -> string -> value -> post_outcome.
Variable utc_clock : nat -> datetime.
Variable float_str : float -> string.

Local Abbreviation alert_model_degradation :=
  (discord_notifier.alert_model_degradation transport utc_clock).
Local Abbreviation alert_high_latency :=
  (discord_notifier.alert_high_latency transport utc_clock float_str).

(** X12. A NaN never alerts. When the accuracy, the latency or a threshold
    is a NaN, neither check sends anything: both return normally and leave
    the state as it was. *)
Theorem nan_never_alerts x threshold w :
  PrimFloat.is_nan x = true \/ PrimFloat.is_nan threshold = true ->
  alert_model_degradation x threshold w = (Return tt, w)
  /\ alert_high_latency x threshold w = (Return tt, w).
Proof.
  intros H. destruct (nan_not_lt x threshold H) as [H1 H2].
  unfold discord_notifier.alert_model_degradation,
         discord_notifier.alert_high_latency, float_gt.
  rewrite H1, H2. split; reflexivity.
Qed.

(** X13. The gap is shown negative. Whenever the degradation alert fires,
    on an enabled notifier, the Gap field of the embed it posts starts with
    a minus sign, next to the accuracy and the threshold as percentages. *)
Theorem degradation_gap_is_negative accuracy threshold w :
  enabled (notifier w) = true ->
  PrimFloat.ltb accuracy threshold = true ->
  exists e rest,
    sole_embed w (snd (alert_model_degradation accuracy threshold w)) = Some e
    /\ embed_get "fields" e
       = Some (VList [ spec_field "Current Accuracy" (format_pct 2 accuracy);
                       spec_field "Threshold" (format_pct 2 threshold);
                       spec_field "Gap" (String "-" rest) ]).
Proof.
  intros He Hlt.
  destruct (format_pct_negative 2 accuracy threshold Hlt) as [rest Hg].
  unfold discord_notifier.alert_model_degradation. rewrite Hlt, Hg.
  destruct (one_alert_posted transport utc_clock
              "Model Performance Degradation"
              ("Model accuracy (" +:+ format_pct 2 accuracy
               +:+ ") dropped below threshold (" +:+ format_pct 2 threshold +:+ ")")
              "warning"
              ("Current Accuracy"%string, SStr (format_pct 2 accuracy))
              [ ("Threshold"%string, SStr (format_pct 2 threshold));
                ("Gap"%string, SStr (String "-" rest)) ]
              w He) as [e [Hs [_ Hf]]].
  exists e, rest. split; [exact Hs|exact Hf].
Qed.

End Thresholds.

(** ** The further properties at sample inputs *)

Section MoreInstances.
Import Python discord_notifier prometheus_metrics samples.

Lemma send_alert_wire_format_witness :
  clock_reads (snd (send_alert accepting stopped_clock "Disk" "Disk is full" "error"
                      None configured)) = 1%nat.
Proof.
  apply (send_alert_wire_format accepting stopped_clock
           "Disk" "Disk is full" "error" None configured).
  vm_compute. reflexivity.
Defined.


Lemma metrics_only_add_fields_witness :
  exists e e0,
    sole_embed configured
      (snd (send_alert accepting stopped_clock "Disk" "Disk is full" "error"
              (Some [("Free"%string, SInt 0)]) configured)) = Some e
    /\ sole_embed configured
         (snd (send_alert accepting stopped_clock "Disk" "Disk is full" "error"
                 None configured)) = Some e0
    /\ embed_get "color" e = embed_get "color" e0.
Proof.
  apply (metrics_only_add_fields accepting stopped_clock
           "Disk" "Disk is full" "error" (Some [("Free"%string, SInt 0)])
           configured "color").
  - vm_compute. reflexivity.
  - discriminate.
Defined.

Lemma one_post_per_fired_call_witness :
  length (new_posts configured
            (run_calls server_down stopped_clock stopped_clock no_float_str
               burst configured))
  = 3%nat.
Proof.
  exact (one_post_per_fired_call server_down stopped_clock stopped_clock
           no_float_str burst configured ltac:(vm_compute; reflexivity)).
Defined.

Lemma unconfigured_module_is_silent_witness :
  posted (run_calls server_down stopped_clock stopped_clock no_float_str
            burst unconfigured) = []
  /\ stdout (run_calls server_down stopped_clock stopped_clock no_float_str
               burst unconfigured) = []
  /\ enabled (notifier (run_calls server_down stopped_clock stopped_clock
                          no_float_str burst unconfigured)) = false.
Proof.
  apply (unconfigured_module_is_silent server_down stopped_clock stopped_clock
           no_float_str burst unconfigured).
  vm_compute. reflexivity.
Defined.

Lemma only_zero_threshold_raises_witness :
  snd (run_call accepting stopped_clock stopped_clock no_float_str
         (Call_alert_high_latency 5 0) configured) = configured.
Proof.
  apply (only_zero_threshold_raises accepting stopped_clock stopped_clock
           no_float_str (Call_alert_high_latency 5 0) configured).
  vm_compute. reflexivity.
Defined.

Lemma setup_prometheus_gate_witness :
  app (snd (setup_prometheus metrics_on fresh_host))
  = [Instrument; Expose "/metrics"]
  /\ printed (snd (setup_prometheus metrics_on fresh_host))
     = ["✅ Prometheus metrics enabled at /metrics"%string].
Proof.
  apply (setup_prometheus_gate metrics_on fresh_host).
  exists "True"%string. split; [vm_compute; reflexivity|].
  cbn. tauto.
Defined.

Lemma nan_never_alerts_witness :
  alert_model_degradation accepting stopped_clock PrimFloat.nan 0.85 configured
  = (Return tt, configured)
  /\ alert_high_latency accepting stopped_clock no_float_str PrimFloat.nan 0.85
       configured
     = (Return tt, configured).
Proof.
  apply (nan_never_alerts accepting stopped_clock no_float_str
           PrimFloat.nan 0.85 configured).
  left. vm_compute. reflexivity.
Defined.

Lemma degradation_gap_is_negative_witness :
  exists e rest,
    sole_embed configured
      (snd (alert_model_degradation accepting stopped_clock 0.78 0.85 configured))
    = Some e
    /\ embed_get "fields" e
       = Some (VList [ spec_field "Current Accuracy" (format_pct 2 0.78);
                       spec_field "Threshold" (format_pct 2 0.85);
                       spec_field "Gap" (String "-" rest) ]).
Proof.
  apply (degradation_gap_is_negative accepting stopped_clock 0.78 0.85 configured).
  - vm_compute. reflexivity.
  - vm_compute. reflexivity.
Defined.

End MoreInstances.
